(** * tools/fix_notebook.py: removal of malformed widget metadata

    A shallow embedding of the notebook repair script and the properties
    of its validator, of its in-memory pass over the parsed document and
    of its backup / write / restore protocol. *)

From Stdlib Require Import String Ascii List Bool Arith Lia.
From stdpp Require Import base option list strings pretty gmap.
Import ListNotations.

Local Open Scope string_scope.
Local Open Scope list_scope.

#[local] Arguments String.eqb : simpl never.
#[local] Arguments String.prefix : simpl never.

(** ** Parsed JSON values

    What [json.load] can return.  A Python [dict] keeps its keys in
    insertion order, so an object is an association list; its keys are
    pairwise distinct.  A float is kept as its binary64 bit pattern: the
    script never looks at it.  A [str] is kept as its UTF-8 bytes; the
    only string tests of the script are searches for the ASCII words
    'metadata', 'widgets' and 'cells', which agree on bytes and on code
    points. *)

#[local] Set Warnings "-register-all".

Inductive value : Type :=
| JNull
| JBool (b : bool)
| JInt (n : Z)
| JFloat (bits : N)
| JStr (s : string)
| JList (l : list value)
| JDict (d : list (string * value)).

Abbreviation dict := (list (string * value)).

(** ** Python [dict] operations on the association list *)

Fixpoint dict_get (k : string) (d : dict) : option value :=
  match d with
  | [] => None
  | (k', v) :: d' => if String.eqb k k' then Some v else dict_get k d'
  end.

Definition dict_mem (k : string) (d : dict) : bool :=
  match dict_get k d with Some _ => true | None => false end.

(** [d[k] = v]: an existing key keeps its position, a new one goes last. *)
Fixpoint dict_put (k : string) (v : value) (d : dict) : dict :=
  match d with
  | [] => [(k, v)]
  | (k', v') :: d' =>
      if String.eqb k k' then (k', v) :: d' else (k', v') :: dict_put k v d'
  end.

(** [del d[k]] (for a key that is present). *)
Definition dict_del (k : string) (d : dict) : dict :=
  filter (fun kv => fst kv ≠ k) d.

Definition dict_keys (d : dict) : list string := map fst d.

(** ** The Python operations the script applies to parsed values *)

Inductive exn : Type := TypeError | KeyError.

Inductive res (A : Type) : Type :=
| Ok (a : A)
| Raise (e : exn).
Arguments Ok {A} a.
Arguments Raise {A} e.

(** [needle in hay] on two [str]: substring search. *)
Fixpoint str_contains (needle hay : string) : bool :=
  String.prefix needle hay ||
  match hay with
  | EmptyString => false
  | String _ rest => str_contains needle rest
  end.

Definition is_str (k : string) (v : value) : bool :=
  match v with JStr s => String.eqb s k | _ => false end.

(** [k in v] for a [str] key [k]: key membership on a dict, element
    membership on a list, substring search on a str, [TypeError] on
    None, booleans and numbers. *)
Definition py_contains (k : string) (v : value) : res bool :=
  match v with
  | JDict d => Ok (dict_mem k d)
  | JList l => Ok (existsb (is_str k) l)
  | JStr s => Ok (str_contains k s)
  | JNull | JBool _ | JInt _ | JFloat _ => Raise TypeError
  end.

(** [v[k]] for a [str] key [k]: defined on a dict only. *)
Definition py_getitem (k : string) (v : value) : res value :=
  match v with
  | JDict d =>
      match dict_get k d with Some x => Ok x | None => Raise KeyError end
  | _ => Raise TypeError
  end.

(** [del v[k]] for a [str] key [k]; the result is the object after the
    in-place deletion. *)
Definition py_delitem (k : string) (v : value) : res value :=
  match v with
  | JDict d => if dict_mem k d then Ok (JDict (dict_del k d)) else Raise KeyError
  | _ => Raise TypeError
  end.

(** The items [for ... in enumerate(v)] runs over: the elements of a
    list, the keys of a dict, the characters of a str. *)
Definition py_iter (v : value) : res (list value) :=
  match v with
  | JList l => Ok l
  | JDict d => Ok (map (fun kv => JStr (fst kv)) d)
  | JStr s => Ok (map (fun c => JStr (String c EmptyString)) (list_ascii_of_string s))
  | JNull | JBool _ | JInt _ | JFloat _ => Raise TypeError
  end.

(** The parsed document is a tree without sharing, and the script
    mutates it in place through [notebook['metadata']] and through the
    loop variable [cell].  [write_back k x v] is the owner [v] as seen
    after the object stored under [k] became [x]. *)
Definition write_back (k : string) (x : value) (v : value) : value :=
  match v with
  | JDict d => JDict (dict_put k x d)
  | _ => v
  end.

(** The container that was iterated, after its items were processed:
    only the items of a list are objects that can have been mutated. *)
Definition py_rebuild (container : value) (items : list value) : value :=
  match container with
  | JList _ => JList items
  | _ => container
  end.

(** ** A writer/exception monad: printed lines and uncaught exceptions *)

Definition Py (A : Type) : Type := list string * res A.

Definition ret {A} (a : A) : Py A := ([], Ok a).

Definition bind {A B} (m : Py A) (f : A -> Py B) : Py B :=
  match m with
  | (out, Ok a) => let '(out', r) := f a in (out ++ out', r)
  | (out, Raise e) => (out, Raise e)
  end.

Definition lift {A} (r : res A) : Py A := ([], r).

Definition print (line : string) : Py unit := ([line], Ok tt).

Declare Scope py_scope.
Delimit Scope py_scope with py.
Notation "'let*' x ':=' m 'in' k" := (bind m (fun x => k))
  (at level 10, x pattern, m at level 100, k at level 200) : py_scope.
Notation "m ;;; k" := (bind m (fun _ => k))
  (at level 100, right associativity) : py_scope.

(** ** [has_valid_widget_state] (lines 17-31) *)

Definition has_valid_widget_state (widgets_metadata : value) : bool :=
  match widgets_metadata with
  | JDict d => dict_mem "state" d
  | _ => false
  end.

(** ** The in-memory pass of [fix_notebook] (lines 60-79) *)

Local Open Scope py_scope.

(** Lines 63-69. *)
Definition notebook_level (notebook : value) : Py (value * bool) :=
  let* has_metadata := lift (py_contains "metadata" notebook) in
  if has_metadata : bool then
    let* metadata := lift (py_getitem "metadata" notebook) in
    let* has_widgets := lift (py_contains "widgets" metadata) in
    if has_widgets : bool then
      let* widgets := lift (py_getitem "widgets" metadata) in
      if negb (has_valid_widget_state widgets) then
        print "Removing malformed widgets metadata at notebook level" ;;;
        let* metadata' := lift (py_delitem "widgets" metadata) in
        ret (write_back "metadata" metadata' notebook, true)
      else ret (notebook, false)
    else ret (notebook, false)
  else ret (notebook, false).

(** Lines 74-79, the body of the loop for the cell of index [i]. *)
Definition cell_level (i : nat) (cell : value) : Py (value * bool) :=
  let* has_metadata := lift (py_contains "metadata" cell) in
  if has_metadata : bool then
    let* metadata := lift (py_getitem "metadata" cell) in
    let* has_widgets := lift (py_contains "widgets" metadata) in
    if has_widgets : bool then
      let* widgets := lift (py_getitem "widgets" metadata) in
      if negb (has_valid_widget_state widgets) then
        print ("Removing malformed widgets metadata from cell " +:+ pretty i) ;;;
        let* metadata' := lift (py_delitem "widgets" metadata) in
        ret (write_back "metadata" metadata' cell, true)
      else ret (cell, false)
    else ret (cell, false)
  else ret (cell, false).

(** Line 73: the loop, from index [i] on. *)
Fixpoint cells_loop (i : nat) (cells : list value) : Py (list value * bool) :=
  match cells with
  | [] => ret ([], false)
  | cell :: rest =>
      let* (cell', changed) := cell_level i cell in
      let* (rest', changed') := cells_loop (S i) rest in
      ret (cell' :: rest', changed || changed')
  end.

(** Lines 72-79, entered with the current [changes_made]. *)
Definition cells_pass (notebook : value) (changes_made : bool) : Py (value * bool) :=
  let* has_cells := lift (py_contains "cells" notebook) in
  if has_cells : bool then
    let* cells := lift (py_getitem "cells" notebook) in
    let* items := lift (py_iter cells) in
    let* (items', changed) := cells_loop 0 items in
    ret (write_back "cells" (py_rebuild cells items') notebook, changes_made || changed)
  else ret (notebook, changes_made).

(** Lines 60-79: the document and [changes_made] as they stand at line 81. *)
Definition strip_widgets (notebook : value) : Py (value * bool) :=
  let* (notebook1, changes_made) := notebook_level notebook in
  cells_pass notebook1 changes_made.

Local Close Scope py_scope.

(** ** Files, clock and the answers of the operating system

    The disk maps a path to the bytes of the file there; a path that is
    not in the map does not exist.  Each operation that can fail takes
    its outcome from the environment; a failed copy or write may leave
    bytes behind at its destination ([residue]).  A path that exists
    and cannot be read (a directory, a missing permission) is an entry
    whose reading fails. *)

Record DateTime : Type := {
  year : nat; month : nat; day : nat;
  hour : nat; minute : nat; second : nat }.

Definition zero_pad (width n : nat) : string :=
  let digits := pretty n in
  String.concat "" (replicate (width - String.length digits) "0") +:+ digits.

(** [strftime("%Y%m%d_%H%M%S")], for the four-digit years that
    [datetime.now()] returns. *)
Definition strftime (t : DateTime) : string :=
  zero_pad 4 (year t) +:+ zero_pad 2 (month t) +:+ zero_pad 2 (day t) +:+ "_" +:+
  zero_pad 2 (hour t) +:+ zero_pad 2 (minute t) +:+ zero_pad 2 (second t).

Inductive io_outcome : Type :=
| IoOk
| IoError (e : string) (residue : option string).

(** One invocation's environment: the clock at line 83, the error that
    opening or reading the file raises (line 51), and the outcomes of
    the copy at line 87, of the write at lines 95-97 and of the copy at
    line 104. *)
Record Env : Type := {
  now : DateTime;
  read_error : option string;
  backup_copy : io_outcome;
  write_fixed : io_outcome;
  restore_copy : io_outcome }.

(** What lines 50-58 end with: the parsed document, a
    [json.JSONDecodeError], or any other exception (an [OSError], a
    [UnicodeDecodeError]). *)
Inductive load_result : Type :=
| Loaded (notebook : value)
| JSONDecodeError (e : string)
| ReadException (e : string).

Abbreviation disk_state := (gmap string string).

Definition leave (dst : string) (residue : option string) (fs : disk_state) : disk_state :=
  match residue with
  | Some bytes => <[dst := bytes]> fs
  | None => fs
  end.

(** [shutil.copy2(src, dst)]: the error raised, if any, and the disk after. *)
Definition copy2 (outcome : io_outcome) (src dst : string) (fs : disk_state)
  : option string * disk_state :=
  match fs !! src with
  | None => (Some ("No such file or directory: " +:+ src), fs)
  | Some bytes =>
      match outcome with
      | IoOk => (None, <[dst := bytes]> fs)
      | IoError e residue => (Some e, leave dst residue fs)
      end
  end.

(** [open(path, 'w')] followed by the writes of [text]. *)
Definition write_text (outcome : io_outcome) (path text : string) (fs : disk_state)
  : option string * disk_state :=
  match outcome with
  | IoOk => (None, <[path := text]> fs)
  | IoError e residue => (Some e, leave path residue fs)
  end.

Definition newline : string := String "010" EmptyString.

(** What a call of [fix_notebook] leaves behind: the value returned or
    the exception that escaped, the disk, the lines printed, and the
    locals [notebook] and [changes_made] if line 81 was reached. *)
Record Run : Type := {
  returned : res bool;
  disk : disk_state;
  stdout : list string;
  at_line_81 : option (value * bool) }.

Section Codec.

(** [json.load] on the bytes of the file and [json.dump(..., indent=2,
    ensure_ascii=False)] belong to the Python library. *)
Variable json_load : string -> load_result.
Variable json_dumps : value -> string.

(** Lines 50-58. *)
Definition read_notebook (env : Env) (bytes : string) : load_result :=
  match read_error env with
  | Some e => ReadException e
  | None => json_load bytes
  end.

Definition backup_path_of (notebook_path : string) (env : Env) : string :=
  notebook_path +:+ ".bak-" +:+ strftime (now env).

(** Lines 81-111, after the pass returned [notebook] and [changes_made]. *)
Definition persist (notebook_path : string) (env : Env) (fs : disk_state)
    (out : list string) (notebook : value) (changes_made : bool) : Run :=
  let locals := Some (notebook, changes_made) in
  if changes_made then
    let backup_path := backup_path_of notebook_path env in
    match copy2 (backup_copy env) notebook_path backup_path fs with
    | (Some e, fs1) =>
        Build_Run (Ok false) fs1 (out ++ ["Error creating backup: " +:+ e]) locals
    | (None, fs1) =>
        let out1 := out ++ ["Created backup: " +:+ backup_path] in
        match write_text (write_fixed env) notebook_path
                (json_dumps notebook +:+ newline) fs1 with
        | (None, fs2) =>
            Build_Run (Ok true) fs2
              (out1 ++ ["Successfully fixed: " +:+ notebook_path]) locals
        | (Some e, fs2) =>
            let out2 := out1 ++ ["Error writing fixed notebook: " +:+ e] in
            match copy2 (restore_copy env) backup_path notebook_path fs2 with
            | (None, fs3) =>
                Build_Run (Ok false) fs3
                  (out2 ++ ["Restored from backup due to write error"]) locals
            | (Some e', fs3) =>
                Build_Run (Ok false) fs3
                  (out2 ++ ["Error restoring backup: " +:+ e']) locals
            end
        end
    end
  else
    Build_Run (Ok true) fs
      (out ++ ["No malformed widget metadata found in: " +:+ notebook_path]) locals.

(** [fix_notebook] (lines 34-111). *)
Definition fix_notebook (notebook_path : string) (env : Env) (fs : disk_state) : Run :=
  match fs !! notebook_path with
  | None =>
      Build_Run (Ok false) fs ["Error: File not found: " +:+ notebook_path] None
  | Some bytes =>
      match read_notebook env bytes with
      | JSONDecodeError e =>
          Build_Run (Ok false) fs ["Error: Invalid JSON in notebook: " +:+ e] None
      | ReadException e =>
          Build_Run (Ok false) fs ["Error reading notebook: " +:+ e] None
      | Loaded notebook =>
          match strip_widgets notebook with
          | (out, Raise e) => Build_Run (Raise e) fs out None
          | (out, Ok (notebook', changes_made)) =>
              persist notebook_path env fs out notebook' changes_made
          end
      end
  end.



End Codec.

(** ** Observations on a document *)

(** The [widgets] entry of the metadata block owned by a notebook or by
    a cell, when there is one. *)
Definition metadata_widgets (owner : value) : option value :=
  match owner with
  | JDict d =>
      match dict_get "metadata" d with
      | Some (JDict m) => dict_get "widgets" m
      | _ => None
      end
  | _ => None
  end.

(** The cells of a notebook. *)
Definition cells_of (notebook : value) : list value :=
  match notebook with
  | JDict d =>
      match dict_get "cells" d with
      | Some (JList cells) => cells
      | _ => []
      end
  | _ => []
  end.

(** A widgets entry that the script leaves alone: none, or a valid one. *)
Definition widgets_fine (owner : value) : bool :=
  match metadata_widgets owner with
  | Some w => has_valid_widget_state w
  | None => true
  end.

(** The key [k] occurs in some mapping of the tree. *)
Fixpoint mentions (k : string) (v : value) : bool :=
  match v with
  | JList l => existsb (mentions k) l
  | JDict d => existsb (fun '(k', x) => String.eqb k' k || mentions k x) d
  | _ => false
  end.

(** The shape of a document in the data model: a mapping whose
    [metadata], if present, is a mapping and whose [cells], if present,
    is a sequence of mappings, the [metadata] of each, if present, being
    a mapping. *)
Definition metadata_shaped (d : dict) : bool :=
  match dict_get "metadata" d with
  | None | Some (JDict _) => true
  | Some _ => false
  end.

Definition cell_shaped (cell : value) : bool :=
  match cell with
  | JDict d => metadata_shaped d
  | _ => false
  end.

Definition notebook_shaped (notebook : value) : bool :=
  match notebook with
  | JDict d =>
      metadata_shaped d &&
      match dict_get "cells" d with
      | None => true
      | Some (JList cells) => forallb cell_shaped cells
      | Some _ => false
      end
  | _ => false
  end.

(** Lines 63-69 and lines 74-79 are the same statements, on the notebook
    and on a cell, up to the line they print. *)
Definition level (line : string) (owner : value) : Py (value * bool) :=
  (let* has_metadata := lift (py_contains "metadata" owner) in
   if has_metadata : bool then
     let* metadata := lift (py_getitem "metadata" owner) in
     let* has_widgets := lift (py_contains "widgets" metadata) in
     if has_widgets : bool then
       let* widgets := lift (py_getitem "widgets" metadata) in
       if negb (has_valid_widget_state widgets) then
         print line ;;;
         let* metadata' := lift (py_delitem "widgets" metadata) in
         ret (write_back "metadata" metadata' owner, true)
       else ret (owner, false)
     else ret (owner, false)
   else ret (owner, false))%py.

(** The owner of a metadata block after the removal the script makes
    there, and whether it made one. *)
Definition stripped (owner : value) : value * bool :=
  match owner with
  | JDict d =>
      match dict_get "metadata" d with
      | Some (JDict m) =>
          match dict_get "widgets" m with
          | Some w =>
              if has_valid_widget_state w then (owner, false)
              else (JDict (dict_put "metadata" (JDict (dict_del "widgets" m)) d), true)
          | None => (owner, false)
          end
      | _ => (owner, false)
      end
  | _ => (owner, false)
  end.

(** The line a removal prints. *)
Definition notice (line : string) (changed : bool) : list string :=
  if changed then [line] else [].

(** The document and [changes_made] that the pass computes when it
    raises nothing: the notebook-level removal, then the removal in each
    cell. *)
Definition strip_all (notebook : value) : value * bool :=
  let '(notebook1, changed) := stripped notebook in
  match notebook1 with
  | JDict d1 =>
      match dict_get "cells" d1 with
      | Some (JList cells) =>
          (JDict (dict_put "cells" (JList (map (fun c => fst (stripped c)) cells)) d1),
           changed || existsb (fun c => snd (stripped c)) cells)
      | _ => (notebook1, changed)
      end
  | _ => (notebook1, changed)
  end.

(** ** What survives a repair

    [block_kept m m']: the metadata block [m'] is [m], or [m] without
    its [widgets] entries, the others in their order.  [entries_kept]
    compares two mappings entry by entry: the same keys in the same
    order, the same values except under the keys a relation is given
    for. *)

Definition block_kept (m m' : value) : Prop :=
  m' = m \/ exists a, m = JDict a /\ m' = JDict (filter (fun kv => fst kv ≠ "widgets") a).

Definition entries_kept (inside : string -> option (value -> value -> Prop))
    (d d' : dict) : Prop :=
  Forall2 (fun kv kv' =>
             fst kv' = fst kv /\
             match inside (fst kv) with
             | Some R => R (snd kv) (snd kv')
             | None => snd kv' = snd kv
             end) d d'.

Definition in_owner (k : string) : option (value -> value -> Prop) :=
  if String.eqb k "metadata" then Some block_kept else None.

Definition cell_kept (c c' : value) : Prop :=
  c' = c \/ exists d d', c = JDict d /\ c' = JDict d' /\ entries_kept in_owner d d'.

Definition cells_kept (x x' : value) : Prop :=
  x' = x \/ exists cs cs', x = JList cs /\ x' = JList cs' /\ Forall2 cell_kept cs cs'.

Definition in_notebook (k : string) : option (value -> value -> Prop) :=
  if String.eqb k "metadata" then Some block_kept
  else if String.eqb k "cells" then Some cells_kept
  else None.

Definition notebook_kept (n n' : value) : Prop :=
  n' = n \/ exists d d', n = JDict d /\ n' = JDict d' /\ entries_kept in_notebook d d'.

(** ** The values the pass goes through

    [owner_tolerated]: the notebook, or a cell, on which lines 63-69
    (lines 74-79) raise nothing.  ['metadata' in owner] must be defined,
    and when it is true [owner] must be a mapping whose [metadata]
    passes the same two tests for 'widgets'. *)

Definition block_tolerated (metadata : value) : bool :=
  match metadata with
  | JDict _ => true
  | JList l => negb (existsb (is_str "widgets") l)
  | JStr s => negb (str_contains "widgets" s)
  | JNull | JBool _ | JInt _ | JFloat _ => false
  end.

Definition owner_tolerated (owner : value) : bool :=
  match owner with
  | JDict d =>
      match dict_get "metadata" d with
      | Some metadata => block_tolerated metadata
      | None => true
      end
  | JList l => negb (existsb (is_str "metadata") l)
  | JStr s => negb (str_contains "metadata" s)
  | JNull | JBool _ | JInt _ | JFloat _ => false
  end.

(** Lines 72-79 raise nothing: ['cells' in notebook] is defined, and
    when it is true the notebook is a mapping whose [cells] can be
    iterated, every item being tolerated (the items of a mapping are its
    keys, those of a string its characters). *)
Definition cells_tolerated (notebook : value) : bool :=
  match notebook with
  | JDict d =>
      match dict_get "cells" d with
      | None => true
      | Some (JList cells) => forallb owner_tolerated cells
      | Some (JDict cd) => forallb (fun kv => negb (str_contains "metadata" (fst kv))) cd
      | Some (JStr _) => true
      | Some _ => false
      end
  | JList l => negb (existsb (is_str "cells") l)
  | JStr s => negb (str_contains "cells" s)
  | JNull | JBool _ | JInt _ | JFloat _ => false
  end.

Definition tolerated (notebook : value) : bool :=
  owner_tolerated notebook && cells_tolerated notebook.

(** The removal lines of the loop, for the cells from index [i] on. *)
Fixpoint cell_notices (i : nat) (cells : list value) : list string :=
  match cells with
  | [] => []
  | cell :: rest =>
      notice ("Removing malformed widgets metadata from cell " +:+ pretty i)
        (negb (widgets_fine cell)) ++ cell_notices (S i) rest
  end.

(** A printed message (the text of one [print] call) that reports a
    removal, and one that reports an error. *)
Definition removal_line (line : string) : Prop :=
  String.prefix "Removing malformed widgets metadata" line = true.

Definition error_line (line : string) : Prop :=
  String.prefix "Error" line = true.

(** ** Sample files

    The texts of four small notebooks, the documents they parse to, and
    a codec that knows just these. *)

Definition quoted (s : string) : string :=
  String "034"%char (s +:+ String "034"%char EmptyString).

Definition text_malformed : string :=
  "{" +:+ quoted "metadata" +:+ ": {" +:+ quoted "widgets" +:+ ": {" +:+ quoted "foo" +:+
  ": 1}}, " +:+ quoted "cells" +:+ ": []}".

Definition doc_malformed : value :=
  JDict [("metadata", JDict [("widgets", JDict [("foo", JInt 1)])]); ("cells", JList [])].

Definition text_fixed : string :=
  "{" +:+ newline +:+ "  " +:+ quoted "metadata" +:+ ": {}," +:+ newline +:+
  "  " +:+ quoted "cells" +:+ ": []" +:+ newline +:+ "}".

Definition doc_fixed : value :=
  JDict [("metadata", JDict []); ("cells", JList [])].

Definition text_valid : string :=
  "{" +:+ quoted "cells" +:+ ": [{" +:+ quoted "metadata" +:+ ": {" +:+ quoted "widgets" +:+
  ": {" +:+ quoted "state" +:+ ": {}}}}]}".

Definition doc_valid : value :=
  JDict [("cells", JList [JDict [("metadata", JDict [("widgets", JDict [("state", JDict [])])])]])].

Definition text_null_metadata : string :=
  "{" +:+ quoted "metadata" +:+ ": null}".

Definition doc_null_metadata : value := JDict [("metadata", JNull)].

Fixpoint value_eqb (a b : value) : bool :=
  match a, b with
  | JNull, JNull => true
  | JBool x, JBool y => Bool.eqb x y
  | JInt x, JInt y => Z.eqb x y
  | JFloat x, JFloat y => N.eqb x y
  | JStr x, JStr y => String.eqb x y
  | JList l, JList l' =>
      (fix all2 (l l' : list value) : bool :=
         match l, l' with
         | [], [] => true
         | x :: l, y :: l' => value_eqb x y && all2 l l'
         | _, _ => false
         end) l l'
  | JDict d, JDict d' =>
      (fix all2 (d d' : dict) : bool :=
         match d, d' with
         | [], [] => true
         | (k, x) :: d, (k', y) :: d' => String.eqb k k' && value_eqb x y && all2 d d'
         | _, _ => false
         end) d d'
  | _, _ => false
  end.

Definition sample_load (bytes : string) : load_result :=
  if String.eqb bytes text_malformed then Loaded doc_malformed
  else if String.eqb bytes (text_fixed +:+ newline) then Loaded doc_fixed
  else if String.eqb bytes text_valid then Loaded doc_valid
  else if String.eqb bytes text_null_metadata then Loaded doc_null_metadata
  else JSONDecodeError "Expecting value: line 1 column 1 (char 0)".

Definition sample_dumps (v : value) : string :=
  if value_eqb v doc_fixed then text_fixed else "null".

Definition sample_time : DateTime :=
  {| year := 2024; month := 3; day := 9; hour := 14; minute := 5; second := 7 |}.

Definition quiet : Env :=
  {| now := sample_time; read_error := None;
     backup_copy := IoOk; write_fixed := IoOk; restore_copy := IoOk |}.

Definition backup_denied : Env :=
  {| now := sample_time; read_error := None;
     backup_copy := IoError "[Errno 13] Permission denied" None;
     write_fixed := IoOk; restore_copy := IoOk |}.

Definition disk_full : Env :=
  {| now := sample_time; read_error := None;
     backup_copy := IoOk;
     write_fixed := IoError "[Errno 28] No space left on device" (Some "{");
     restore_copy := IoOk |}.

Definition disk_with (text : string) : disk_state := {[ "nb.ipynb" := text ]}.

(** A notebook of three cells, the second with a null widgets entry,
    its text, and what the script makes of it. *)
Definition doc_cells : value :=
  JDict [("cells", JList [
    JDict [("cell_type", JStr "code")];
    JDict [("metadata", JDict [("widgets", JNull)]); ("source", JStr "x")];
    JDict [("metadata", JDict [])]])].

Definition doc_cells_fixed : value :=
  JDict [("cells", JList [
    JDict [("cell_type", JStr "code")];
    JDict [("metadata", JDict []); ("source", JStr "x")];
    JDict [("metadata", JDict [])]])].

Definition text_cells : string :=
  "{" +:+ quoted "cells" +:+ ": [{" +:+ quoted "cell_type" +:+ ": " +:+ quoted "code" +:+
  "}, {" +:+ quoted "metadata" +:+ ": {" +:+ quoted "widgets" +:+ ": null}, " +:+
  quoted "source" +:+ ": " +:+ quoted "x" +:+ "}, {" +:+ quoted "metadata" +:+ ": {}}]}".

Definition text_cells_fixed : string :=
  String.concat newline [
    "{";
    "  " +:+ quoted "cells" +:+ ": [";
    "    {";
    "      " +:+ quoted "cell_type" +:+ ": " +:+ quoted "code";
    "    },";
    "    {";
    "      " +:+ quoted "metadata" +:+ ": {},";
    "      " +:+ quoted "source" +:+ ": " +:+ quoted "x";
    "    },";
    "    {";
    "      " +:+ quoted "metadata" +:+ ": {}";
    "    }";
    "  ]";
    "}" ].

Definition cells_load (bytes : string) : load_result :=
  if String.eqb bytes text_cells then Loaded doc_cells
  else if String.eqb bytes (text_cells_fixed +:+ newline) then Loaded doc_cells_fixed
  else sample_load bytes.

Definition cells_dumps (v : value) : string :=
  if value_eqb v doc_cells_fixed then text_cells_fixed else sample_dumps v.

(** A disk with the malformed notebook and a file of someone else. *)
Definition disk_two : disk_state :=
  <["notes.txt" := "keep"]> (disk_with text_malformed).

(** * Properties *)

Example strip_widgets_scenario_1 :
  strip_widgets (JDict [("metadata", JDict [("widgets", JDict [("foo", JInt 1)])]); ("cells", JList [])])
  = (["Removing malformed widgets metadata at notebook level"],
     Ok (JDict [("metadata", JDict []); ("cells", JList [])], true)).
Proof. reflexivity. Qed.

Example strip_widgets_scenario_2 :
  strip_widgets (JDict [("cells", JList [JDict [("metadata", JDict [("widgets", JDict [("state", JDict [])])])]])])
  = ([], Ok (JDict [("cells", JList [JDict [("metadata", JDict [("widgets", JDict [("state", JDict [])])])]])], false)).
Proof. reflexivity. Qed.

Example strip_widgets_cell_1 :
  fst (strip_widgets (JDict [("cells", JList [JDict []; JDict [("metadata", JDict [("widgets", JNull)])]; JDict []])]))
  = ["Removing malformed widgets metadata from cell 1"].
Proof. vm_compute. reflexivity. Qed.


(** ** Association lists *)

Lemma dict_get_put_eq k v d : dict_get k (dict_put k v d) = Some v.
Proof.
  induction d as [|[k' v'] d IH]; simpl.
  - by rewrite String.eqb_refl.
  - destruct (String.eqb k k') eqn:E; simpl; rewrite E; [done|apply IH].
Qed.

Lemma dict_get_put_ne k k' v d : k ≠ k' -> dict_get k' (dict_put k v d) = dict_get k' d.
Proof.
  intros Hne. induction d as [|[k0 v0] d IH]; simpl.
  - apply String.eqb_neq in Hne. rewrite String.eqb_sym in Hne. by rewrite Hne.
  - destruct (String.eqb k k0) eqn:E; simpl; [|by rewrite IH].
    apply String.eqb_eq in E; subst k0.
    assert (String.eqb k' k = false) as -> by (apply String.eqb_neq; naive_solver).
    done.
Qed.

Lemma dict_keys_put k v d : dict_mem k d = true -> dict_keys (dict_put k v d) = dict_keys d.
Proof.
  unfold dict_mem, dict_keys. induction d as [|[k' v'] d IH]; simpl; [done|].
  destruct (String.eqb k k') eqn:E; simpl; [done|].
  intros H. by rewrite IH.
Qed.

Lemma dict_get_del_eq k d : dict_get k (dict_del k d) = None.
Proof.
  unfold dict_del. induction d as [|[k' v'] d IH]; [done|].
  rewrite filter_cons. simpl. destruct (decide (k' ≠ k)) as [Hne|]; [|done].
  simpl. assert (String.eqb k k' = false) as -> by (apply String.eqb_neq; naive_solver).
  done.
Qed.

Lemma dict_get_del_ne k k' d : k ≠ k' -> dict_get k' (dict_del k d) = dict_get k' d.
Proof.
  intros Hne. unfold dict_del. induction d as [|[k0 v0] d IH]; [done|].
  rewrite filter_cons. simpl. destruct (decide (k0 ≠ k)) as [Hk|Hk]; simpl.
  - by rewrite IH.
  - apply dec_stable in Hk. subst k0.
    assert (String.eqb k' k = false) as -> by (apply String.eqb_neq; naive_solver).
    done.
Qed.

Lemma dict_del_absent k d : dict_get k d = None -> dict_del k d = d.
Proof.
  unfold dict_del. induction d as [|[k' v'] d IH]; [done|]. simpl.
  destruct (String.eqb k k') eqn:E; [done|]. intros H.
  rewrite filter_cons. simpl. apply String.eqb_neq in E.
  destruct (decide (k' ≠ k)); [|naive_solver]. by rewrite IH.
Qed.

(** Deleting a key keeps the other entries, in their order. *)
Lemma dict_del_keys k d : dict_keys (dict_del k d) = filter (fun k' => k' ≠ k) (dict_keys d).
Proof.
  unfold dict_del, dict_keys. induction d as [|[k' v'] d IH]; [done|].
  simpl. rewrite !filter_cons. simpl. destruct (decide (k' ≠ k)); simpl; by rewrite IH.
Qed.

(** ** One metadata block *)

Ltac run_py :=
  cbn [bind lift ret print py_contains py_getitem py_delitem write_back
       has_valid_widget_state negb app fst snd] in *.

Ltac crunch :=
  unfold ret, notice in *;
  repeat first [ progress run_py | progress unfold dict_mem in * | progress simplify_eq | case_match ].

Lemma notebook_level_eq :
  notebook_level = level "Removing malformed widgets metadata at notebook level".
Proof. reflexivity. Qed.

Lemma cell_level_eq i :
  cell_level i = level ("Removing malformed widgets metadata from cell " +:+ pretty i).
Proof. reflexivity. Qed.

Lemma level_returns line owner out r :
  level line owner = (out, Ok r) -> r = stripped owner /\ out = notice line (snd r).
Proof.
  unfold level, stripped. intros H.
  destruct owner as [| | | | s | l | d]; run_py; try discriminate; crunch; done.
Qed.

(** On a mapping whose metadata is a mapping, no exception is raised. *)
Lemma level_shaped line d :
  metadata_shaped d = true ->
  level line (JDict d) = (notice line (snd (stripped (JDict d))), Ok (stripped (JDict d))).
Proof. unfold level, metadata_shaped, stripped. intros H. crunch; done. Qed.

(** The line printed has no influence on the result. *)
Lemma level_line line line' owner out r :
  level line owner = (out, Ok r) -> level line' owner = (notice line' (snd r), Ok r).
Proof.
  unfold level. intros H.
  destruct owner as [| | | | s | l | d]; run_py; try discriminate; crunch; done.
Qed.

Lemma notebook_level_returns owner out r :
  notebook_level owner = (out, Ok r) ->
  r = stripped owner /\
  out = notice "Removing malformed widgets metadata at notebook level" (snd r).
Proof. rewrite notebook_level_eq. apply level_returns. Qed.

Lemma cell_level_returns i cell out r :
  cell_level i cell = (out, Ok r) ->
  r = stripped cell /\
  out = notice ("Removing malformed widgets metadata from cell " +:+ pretty i) (snd r).
Proof. rewrite cell_level_eq. apply level_returns. Qed.

Lemma notebook_level_shaped d :
  metadata_shaped d = true ->
  notebook_level (JDict d) =
    (notice "Removing malformed widgets metadata at notebook level" (snd (stripped (JDict d))),
     Ok (stripped (JDict d))).
Proof. rewrite notebook_level_eq. apply level_shaped. Qed.

Lemma cell_level_shaped i cell :
  cell_shaped cell = true ->
  cell_level i cell =
    (notice ("Removing malformed widgets metadata from cell " +:+ pretty i) (snd (stripped cell)),
     Ok (stripped cell)).
Proof.
  rewrite cell_level_eq. destruct cell as [| | | | | | d]; try done. apply level_shaped.
Qed.

(** ** The loop over the cells and the whole pass *)

Lemma cells_loop_returns cells : forall i out r,
  cells_loop i cells = (out, Ok r) ->
  r = (map (fun c => fst (stripped c)) cells, existsb (fun c => snd (stripped c)) cells).
Proof.
  induction cells as [|cell rest IH]; intros i out r; cbn [cells_loop].
  - unfold ret. by intros [= <- <-].
  - unfold bind at 1. destruct (cell_level i cell) as [out1 [[cell' ch]|e]] eqn:E1; [|done].
    apply cell_level_returns in E1 as [E1 _].
    unfold bind at 1. destruct (cells_loop (S i) rest) as [out2 [[rest' ch']|e]] eqn:E2; [|done].
    apply IH in E2. unfold ret. intros [= <- <-]. simplify_eq. simpl.
    by rewrite <- E1.
Qed.

Lemma cells_loop_shaped cells : forall i,
  forallb cell_shaped cells = true ->
  exists out,
    cells_loop i cells =
      (out, Ok (map (fun c => fst (stripped c)) cells,
                existsb (fun c => snd (stripped c)) cells)).
Proof.
  induction cells as [|cell rest IH]; intros i; cbn [cells_loop forallb].
  - by exists [].
  - intros [Hc Hr]%andb_true_iff. rewrite (cell_level_shaped i cell Hc).
    destruct (IH (S i) Hr) as [out' ->]. unfold bind, ret. simpl.
    destruct (stripped cell) as [c' ch]. simpl. eauto.
Qed.

Lemma str_items_stay {A} (f : A -> string) (l : list A) :
  map (fun c => fst (stripped c)) (map (fun a => JStr (f a)) l) = map (fun a => JStr (f a)) l
  /\ existsb (fun c => snd (stripped c)) (map (fun a => JStr (f a)) l) = false.
Proof. induction l as [|a l [IH1 IH2]]; simpl; [done|]. by rewrite IH1, IH2. Qed.

Lemma dict_put_same k v d : dict_get k d = Some v -> dict_put k v d = d.
Proof.
  induction d as [|[k' v'] d IH]; simpl; [done|].
  destruct (String.eqb k k'); [by intros [= ->]|]. intros H. by rewrite IH.
Qed.

Lemma strip_widgets_returns notebook out r :
  strip_widgets notebook = (out, Ok r) -> r = strip_all notebook.
Proof.
  unfold strip_widgets, cells_pass, strip_all. unfold bind at 1.
  destruct (notebook_level notebook) as [out1 [[nb1 ch]|e]] eqn:E1; [|done].
  apply notebook_level_returns in E1 as [E1 _]. rewrite <- E1. clear E1.
  destruct nb1 as [| | | | s | l | d1]; run_py; try done.
  - unfold ret. destruct (str_contains _ _); [done|]. by intros [= <- <-].
  - unfold ret. destruct (existsb _ _); [done|]. by intros [= <- <-].
  - unfold dict_mem, ret.
    destruct (dict_get "cells" d1) as [cells|] eqn:Ec; [|by intros [= <- <-]].
    destruct cells as [| | | | s | l | cd]; cbn [py_iter py_rebuild]; try done.
    all: destruct (cells_loop 0 _) as [out2 [[items' ch']|e]] eqn:E2; [|done];
      apply cells_loop_returns in E2; intros [= <- <-]; simplify_eq.
    + destruct (str_items_stay (fun c => String c EmptyString) (list_ascii_of_string s)) as [_ ->].
      by rewrite (dict_put_same _ _ _ Ec), orb_false_r.
    + done.
    + destruct (str_items_stay fst cd) as [_ ->].
      by rewrite (dict_put_same _ _ _ Ec), orb_false_r.
Qed.

Lemma stripped_dict d :
  exists d', fst (stripped (JDict d)) = JDict d' /\
    dict_keys d' = dict_keys d /\
    forall k, k ≠ "metadata" -> dict_get k d' = dict_get k d.
Proof.
  unfold stripped.
  destruct (dict_get "metadata" d) as [m|] eqn:Em; [|by exists d].
  destruct m as [| | | | | | dm]; try by exists d.
  destruct (dict_get "widgets" dm) as [w|]; [|by exists d].
  destruct (has_valid_widget_state w); [by exists d|].
  eexists; split; [done|]. split.
  - apply dict_keys_put. unfold dict_mem. by rewrite Em.
  - intros k Hk. by apply dict_get_put_ne.
Qed.

(** A document of the data model's shape goes through the pass without
    an exception. *)
Lemma strip_widgets_shaped notebook :
  notebook_shaped notebook = true ->
  exists out, strip_widgets notebook = (out, Ok (strip_all notebook)).
Proof.
  destruct notebook as [| | | | s | l | d]; try done. cbn [notebook_shaped].
  intros [Hm Hc]%andb_true_iff. unfold strip_widgets, cells_pass, strip_all.
  rewrite (notebook_level_shaped d Hm).
  destruct (stripped_dict d) as (d1 & E1 & _ & Hget).
  destruct (stripped (JDict d)) as [nb1 ch]. simpl in E1. subst nb1.
  unfold bind at 1. run_py. unfold dict_mem, ret.
  rewrite (Hget "cells") by done.
  destruct (dict_get "cells" d) as [cells|]; [|eauto].
  destruct cells as [| | | | | cells |]; try done.
  cbn [py_iter py_rebuild].
  destruct (cells_loop_shaped cells 0 Hc) as [out' ->]. simpl. eauto.
Qed.

(** ** What the removal establishes *)

Lemma stripped_flag owner : snd (stripped owner) = negb (widgets_fine owner).
Proof.
  unfold stripped, widgets_fine, metadata_widgets.
  repeat case_match; simplify_eq; simpl; try done.
  all: by match goal with H : has_valid_widget_state _ = _ |- _ => rewrite H end.
Qed.

Lemma stripped_unchanged owner : widgets_fine owner = true -> stripped owner = (owner, false).
Proof.
  unfold stripped, widgets_fine, metadata_widgets.
  repeat case_match; simplify_eq; try done. congruence.
Qed.

Lemma stripped_widgets owner :
  metadata_widgets (fst (stripped owner)) =
    if widgets_fine owner then metadata_widgets owner else None.
Proof.
  destruct (widgets_fine owner) eqn:Hf.
  - by rewrite stripped_unchanged.
  - revert Hf. unfold stripped, widgets_fine, metadata_widgets.
    destruct owner as [| | | | | | d]; try done.
    destruct (dict_get "metadata" d) as [[| | | | | | dm]|] eqn:Em; try done.
    destruct (dict_get "widgets" dm) as [w|] eqn:Ew; [|done].
    intros ->. cbn [fst]. rewrite dict_get_put_eq. apply dict_get_del_eq.
Qed.

Lemma stripped_fine owner : widgets_fine (fst (stripped owner)) = true.
Proof.
  unfold widgets_fine at 1. rewrite stripped_widgets.
  destruct (widgets_fine owner) eqn:Hf; [|done]. exact Hf.
Qed.

Lemma stripped_idem owner : stripped (fst (stripped owner)) = (fst (stripped owner), false).
Proof. apply stripped_unchanged, stripped_fine. Qed.

Lemma map_stripped_fine cells :
  forallb widgets_fine cells = true -> map (fun c => fst (stripped c)) cells = cells.
Proof.
  induction cells as [|c cells IH]; simpl; [done|].
  intros [Hc Hr]%andb_true_iff. by rewrite stripped_unchanged, IH.
Qed.

Lemma existsb_stripped cells :
  existsb (fun c => snd (stripped c)) cells = negb (forallb widgets_fine cells).
Proof.
  induction cells as [|c cells IH]; simpl; [done|].
  by rewrite stripped_flag, IH, negb_andb.
Qed.

Lemma forallb_stripped_fine cells :
  forallb widgets_fine (map (fun c => fst (stripped c)) cells) = true.
Proof.
  induction cells as [|c cells IH]; simpl; [done|]. by rewrite stripped_fine, IH.
Qed.

(** ** The pass as a whole *)

Lemma metadata_widgets_put_cells x d :
  metadata_widgets (JDict (dict_put "cells" x d)) = metadata_widgets (JDict d).
Proof. unfold metadata_widgets. by rewrite dict_get_put_ne. Qed.

Lemma strip_all_widgets notebook :
  metadata_widgets (fst (strip_all notebook)) = metadata_widgets (fst (stripped notebook)).
Proof.
  unfold strip_all. destruct (stripped notebook) as [nb1 ch]. cbn [fst].
  destruct nb1 as [| | | | | | d1]; try done.
  destruct (dict_get "cells" d1) as [[| | | | | cells |]|]; try done.
  cbn [fst]. apply metadata_widgets_put_cells.
Qed.

Lemma strip_all_cells notebook :
  cells_of (fst (strip_all notebook)) = map (fun c => fst (stripped c)) (cells_of notebook).
Proof.
  unfold strip_all. 
  assert (cells_of (fst (stripped notebook)) = cells_of notebook) as Hc.
  { destruct notebook as [| | | | | | d]; try done.
    destruct (stripped_dict d) as (d1 & -> & _ & Hget).
    unfold cells_of. by rewrite Hget. }
  destruct (stripped notebook) as [nb1 ch]. cbn [fst] in *. rewrite <- Hc.
  destruct nb1 as [| | | | | | d1]; try done. unfold cells_of at 2.
  destruct (dict_get "cells" d1) as [[| | | | | cells |]|] eqn:E; cbn [fst cells_of map]; try by rewrite ?E.
  by rewrite dict_get_put_eq.
Qed.

Lemma strip_all_flag notebook :
  snd (strip_all notebook) =
    negb (widgets_fine notebook && forallb widgets_fine (cells_of notebook)).
Proof.
  rewrite negb_andb, <- stripped_flag, <- existsb_stripped.
  unfold strip_all.
  assert (cells_of (fst (stripped notebook)) = cells_of notebook) as Hc.
  { destruct notebook as [| | | | | | d]; try done.
    destruct (stripped_dict d) as (d1 & -> & _ & Hget).
    unfold cells_of. by rewrite Hget. }
  destruct (stripped notebook) as [nb1 ch]. cbn [fst snd] in *. rewrite <- Hc.
  destruct nb1 as [| | | | | | d1]; cbn [cells_of existsb snd]; try by rewrite orb_false_r.
  destruct (dict_get "cells" d1) as [[| | | | | cells |]|] eqn:E;
    cbn [existsb snd]; by rewrite ?orb_false_r.
Qed.

(** No removal: the document is the one that was parsed. *)
Lemma strip_all_unchanged notebook :
  snd (strip_all notebook) = false -> fst (strip_all notebook) = notebook.
Proof.
  rewrite strip_all_flag. intros [Hn Hc]%negb_false_iff%andb_true_iff.
  unfold strip_all. rewrite (stripped_unchanged _ Hn).
  destruct notebook as [| | | | | | d]; try done.
  unfold cells_of in Hc.
  destruct (dict_get "cells" d) as [[| | | | | cells |]|] eqn:E; try done.
  cbn [fst]. rewrite (map_stripped_fine _ Hc). by rewrite (dict_put_same _ _ _ E).
Qed.

Lemma strip_all_fine notebook :
  widgets_fine (fst (strip_all notebook)) = true /\
  forallb widgets_fine (cells_of (fst (strip_all notebook))) = true.
Proof.
  split.
  - unfold widgets_fine. rewrite strip_all_widgets. apply stripped_fine.
  - rewrite strip_all_cells. apply forallb_stripped_fine.
Qed.

Lemma strip_all_idem notebook :
  strip_all (fst (strip_all notebook)) = (fst (strip_all notebook), false).
Proof.
  destruct (strip_all_fine notebook) as [Hn Hc].
  assert (snd (strip_all (fst (strip_all notebook))) = false) as Hflag.
  { by rewrite strip_all_flag, Hn, Hc. }
  pose proof (strip_all_unchanged _ Hflag) as Hfst.
  destruct (strip_all (fst (strip_all notebook))) as [n' c']. simpl in *. by subst.
Qed.

(** ** What the removal leaves in place *)

Lemma block_kept_refl m : block_kept m m.
Proof. by left. Qed.

Lemma cell_kept_refl c : cell_kept c c.
Proof. by left. Qed.

Lemma cells_kept_refl x : cells_kept x x.
Proof. by left. Qed.

Lemma entries_kept_refl inside d :
  (forall k R x, inside k = Some R -> R x x) -> entries_kept inside d d.
Proof.
  intros Hrefl. unfold entries_kept. induction d as [|[k v] d IH]; constructor; [|done].
  split; [done|]. simpl. destruct (inside k) as [R|] eqn:E; [by eapply Hrefl|done].
Qed.

Lemma entries_kept_put inside k R v v' d :
  (forall k R x, inside k = Some R -> R x x) ->
  inside k = Some R -> dict_get k d = Some v -> R v v' ->
  entries_kept inside d (dict_put k v' d).
Proof.
  intros Hrefl Hin Hget HR. unfold entries_kept.
  induction d as [|[k0 v0] d IH]; [done|]. simpl in *.
  destruct (String.eqb k k0) eqn:E.
  - apply String.eqb_eq in E. simplify_eq. constructor.
    + simpl. by rewrite Hin.
    + by apply entries_kept_refl.
  - constructor; [|by apply IH]. split; [done|]. simpl.
    destruct (inside k0) as [R'|] eqn:E'; [by eapply Hrefl|done].
Qed.

Lemma in_owner_refl k R x : in_owner k = Some R -> R x x.
Proof. unfold in_owner. case_match; [|done]. intros [= <-]. apply block_kept_refl. Qed.

Lemma in_notebook_refl k R x : in_notebook k = Some R -> R x x.
Proof.
  unfold in_notebook. repeat case_match; try done; intros [= <-].
  - apply block_kept_refl.
  - apply cells_kept_refl.
Qed.

Lemma stripped_kept inside d :
  (forall k R x, inside k = Some R -> R x x) ->
  inside "metadata" = Some block_kept ->
  exists d', fst (stripped (JDict d)) = JDict d' /\ entries_kept inside d d'.
Proof.
  intros Hrefl Hin. unfold stripped.
  destruct (dict_get "metadata" d) as [m|] eqn:Em;
    [|by exists d; split; [|apply entries_kept_refl]].
  destruct m as [| | | | | | dm];
    try by exists d; split; [|apply entries_kept_refl].
  destruct (dict_get "widgets" dm) as [w|];
    [|by exists d; split; [|apply entries_kept_refl]].
  destruct (has_valid_widget_state w);
    [by exists d; split; [|apply entries_kept_refl]|].
  eexists; split; [done|].
  eapply entries_kept_put; [done..|]. right. by exists dm.
Qed.

Lemma stripped_cell_kept cell : cell_kept cell (fst (stripped cell)).
Proof.
  destruct cell as [| | | | | | d]; try by left.
  destruct (stripped_kept in_owner d in_owner_refl eq_refl) as (d' & E & Hk).
  right. by exists d, d'.
Qed.

Lemma stripped_cells_kept cells :
  Forall2 cell_kept cells (map (fun c => fst (stripped c)) cells).
Proof.
  induction cells as [|c cells IH]; constructor; [apply stripped_cell_kept|done].
Qed.

Lemma entries_kept_then_cells d d1 cells cells' :
  entries_kept in_notebook d d1 ->
  dict_get "cells" d1 = Some cells -> dict_get "cells" d = Some cells ->
  cells_kept cells cells' ->
  entries_kept in_notebook d (dict_put "cells" cells' d1).
Proof.
  unfold entries_kept. intros H. induction H as [|[k v] [k1 v1] d d1 [Hk Hv] Hrest IH]; [done|].
  simpl in *. subst k1. rewrite (String.eqb_sym "cells" k).
  destruct (String.eqb k "cells") eqn:E.
  - apply String.eqb_eq in E. subst k. intros [= ->] [= ->] Hc.
    constructor; [by split|done].
  - intros H1 H2 Hc. constructor; [by split|by apply IH].
Qed.

Lemma strip_all_kept notebook : notebook_kept notebook (fst (strip_all notebook)).
Proof.
  destruct notebook as [| | | | | | d]; try by left.
  unfold strip_all.
  destruct (stripped_kept in_notebook d in_notebook_refl eq_refl) as (d1 & E1 & Hk).
  destruct (stripped_dict d) as (d1' & E1' & _ & Hget).
  destruct (stripped (JDict d)) as [nb1 ch]. cbn [fst] in *. simplify_eq.
  right. exists d.
  destruct (dict_get "cells" d1') as [cells|] eqn:Ec; [|by exists d1'].
  destruct cells as [| | | | | cells |]; try by exists d1'.
  eexists; split; [done|]. split; [done|].
  eapply entries_kept_then_cells; [done..| |].
  - by rewrite <- Hget.
  - right. exists cells. eexists. split; [done|]. split; [done|]. apply stripped_cells_kept.
Qed.

(** ** Running the pass on its own result *)

Lemma stripped_changed owner :
  snd (stripped owner) = true ->
  exists d m, owner = JDict d /\ dict_get "metadata" d = Some (JDict m) /\
    fst (stripped owner) = JDict (dict_put "metadata" (JDict (dict_del "widgets" m)) d).
Proof.
  unfold stripped. destruct owner as [| | | | | | d]; try done.
  destruct (dict_get "metadata" d) as [[| | | | | | m]|] eqn:Em; try done.
  destruct (dict_get "widgets" m) as [w|]; [|done].
  destruct (has_valid_widget_state w); [done|]. intros _. by exists d, m.
Qed.

Lemma level_again line line' owner out r :
  level line owner = (out, Ok r) -> level line' (fst r) = ([], Ok (fst r, false)).
Proof.
  intros H. destruct (level_returns _ _ _ _ H) as [-> _].
  destruct (snd (stripped owner)) eqn:Hflag.
  - apply stripped_changed in Hflag as (d & m & -> & Em & ->).
    unfold level. run_py. unfold dict_mem. rewrite dict_get_put_eq. run_py.
    unfold dict_mem. by rewrite dict_get_del_eq.
  - apply (level_line _ line') in H. rewrite Hflag in H.
    rewrite stripped_flag in Hflag. apply negb_false_iff in Hflag.
    by rewrite (stripped_unchanged _ Hflag) in *.
Qed.

Lemma notebook_level_again owner out r :
  notebook_level owner = (out, Ok r) -> notebook_level (fst r) = ([], Ok (fst r, false)).
Proof. rewrite notebook_level_eq. apply level_again. Qed.

Lemma cells_loop_again cells : forall i j out r,
  cells_loop i cells = (out, Ok r) -> cells_loop j (fst r) = ([], Ok (fst r, false)).
Proof.
  induction cells as [|cell rest IH]; intros i j out r; cbn [cells_loop].
  - unfold ret. by intros [= <- <-].
  - unfold bind at 1. destruct (cell_level i cell) as [out1 [[cell' ch]|e]] eqn:E1; [|done].
    unfold bind at 1. destruct (cells_loop (S i) rest) as [out2 [[rest' ch']|e]] eqn:E2; [|done].
    unfold ret. intros [= <- <-]. cbn [fst cells_loop].
    rewrite cell_level_eq in E1. apply (level_again _ ("Removing malformed widgets metadata from cell " +:+ pretty j)) in E1.
    cbn [fst] in E1. rewrite cell_level_eq, E1. apply (IH _ (S j)) in E2. cbn [fst] in E2.
    unfold bind at 1. by rewrite E2.
Qed.

Lemma level_put_cells line x d out :
  level line (JDict d) = (out, Ok (JDict d, false)) ->
  level line (JDict (dict_put "cells" x d)) = (out, Ok (JDict (dict_put "cells" x d), false)).
Proof.
  unfold level. run_py. unfold dict_mem. rewrite dict_get_put_ne by done.
  intros H. crunch; done.
Qed.

Lemma cells_pass_again notebook ch out r :
  cells_pass notebook ch = (out, Ok r) ->
  cells_pass (fst r) false = ([], Ok (fst r, false)).
Proof.
  unfold cells_pass.
  destruct notebook as [| | | | s | l | d]; run_py; try done.
  - unfold ret. destruct (str_contains _ _) eqn:E; [done|]. intros [= <- <-]. run_py. by rewrite E.
  - unfold ret. destruct (existsb _ _) eqn:E; [done|]. intros [= <- <-]. run_py. by rewrite E.
  - unfold dict_mem, ret.
    destruct (dict_get "cells" d) as [cells|] eqn:Ec.
    2:{ intros [= <- <-]. run_py. unfold dict_mem. by rewrite Ec. }
    destruct (py_iter cells) as [items|e] eqn:Ei; [|done].
    destruct (cells_loop 0 items) as [out2 [[items' ch']|e]] eqn:E2; [|done].
    intros [= <- <-]. run_py. unfold dict_mem. rewrite dict_get_put_eq. run_py.
    pose proof (cells_loop_returns _ _ _ _ E2) as [= -> ->].
    apply (cells_loop_again _ _ 0) in E2. cbn [fst] in E2.
    destruct cells as [| | | | s | l | cd]; cbn [py_iter py_rebuild] in *; simplify_eq.
    + destruct (str_items_stay (fun c => String c EmptyString) (list_ascii_of_string s)) as [Hs _].
      rewrite Hs in E2. rewrite E2. cbn. by rewrite (dict_put_same _ _ _ Ec), (dict_put_same _ _ _ Ec).
    + rewrite E2. cbn. f_equal. f_equal. f_equal. f_equal.
      apply dict_put_same, dict_get_put_eq.
    + destruct (str_items_stay fst cd) as [Hs _].
      rewrite Hs in E2. rewrite E2. cbn. by rewrite (dict_put_same _ _ _ Ec), (dict_put_same _ _ _ Ec).
Qed.

(** Idempotence, in memory: the pass raises nothing on its own result
    and leaves it as it is. *)
Lemma strip_widgets_again notebook out r :
  strip_widgets notebook = (out, Ok r) -> strip_widgets (fst r) = ([], Ok (fst r, false)).
Proof.
  unfold strip_widgets. unfold bind at 1.
  destruct (notebook_level notebook) as [out1 [[nb1 ch]|e]] eqn:E1; [|done].
  destruct (cells_pass nb1 ch) as [out2 [[nb2 ch2]|e]] eqn:E2; [|done].
  intros [= <- <-]. cbn [fst].
  apply notebook_level_again in E1. cbn [fst] in E1.
  pose proof (cells_pass_again _ _ _ _ E2) as E3. cbn [fst] in E3.
  assert (notebook_level nb2 = ([], Ok (nb2, false))) as ->.
  { revert E2. unfold cells_pass.
    destruct nb1 as [| | | | s | l | d]; run_py; try done.
    - unfold ret. destruct (str_contains _ _); [done|]. by intros [= <- <-].
    - unfold ret. destruct (existsb _ _); [done|]. by intros [= <- <-].
    - unfold dict_mem, ret. destruct (dict_get "cells" d) as [cells|]; [|by intros [= <- <-]].
      destruct (py_iter cells) as [items|e]; [|done].
      destruct (cells_loop 0 items) as [out3 [[items' ch']|e]]; [|done].
      intros [= <- <-]. rewrite notebook_level_eq in *. by apply level_put_cells. }
  unfold bind. by rewrite E3.
Qed.

(** ** Keys that occur nowhere *)

Lemma mentions_cons k k0 v0 d :
  mentions k (JDict ((k0, v0) :: d)) = String.eqb k0 k || mentions k v0 || mentions k (JDict d).
Proof. reflexivity. Qed.

Lemma mentions_dict_get k d : mentions k (JDict d) = false ->
  dict_get k d = None /\ forall k' x, dict_get k' d = Some x -> mentions k x = false.
Proof.
  induction d as [|[k0 v0] d IH]; [done|].
  rewrite mentions_cons. intros [[Hk Hv]%orb_false_iff Hd]%orb_false_iff.
  destruct (IH Hd) as [IH1 IH2]. cbn [dict_get]. split.
  - rewrite String.eqb_sym. by rewrite Hk.
  - intros k' x. destruct (String.eqb k' k0); [by intros [= <-]|]. apply IH2.
Qed.

Lemma mentions_list k l : mentions k (JList l) = false -> forallb (fun x => negb (mentions k x)) l = true.
Proof.
  induction l as [|x l IH]; [done|].
  change (mentions k (JList (x :: l))) with (mentions k x || mentions k (JList l)).
  intros [Hx Hl]%orb_false_iff. cbn [forallb]. by rewrite Hx, IH.
Qed.

Lemma mentions_widgets_fine owner : mentions "widgets" owner = false -> widgets_fine owner = true.
Proof.
  unfold widgets_fine, metadata_widgets. destruct owner as [| | | | | | d]; try done.
  intros [_ Hd]%mentions_dict_get.
  destruct (dict_get "metadata" d) as [[| | | | | | m]|] eqn:Em; try done.
  apply Hd in Em. apply mentions_dict_get in Em as [-> _]. done.
Qed.

Lemma mentions_cells_fine notebook :
  mentions "widgets" notebook = false -> forallb widgets_fine (cells_of notebook) = true.
Proof.
  unfold cells_of. destruct notebook as [| | | | | | d]; try done.
  intros [_ Hd]%mentions_dict_get.
  destruct (dict_get "cells" d) as [[| | | | | cells |]|] eqn:Ec; try done.
  apply Hd, mentions_list in Ec. induction cells as [|c cells IH]; [done|].
  cbn [forallb] in *. apply andb_true_iff in Ec as [Hc Hr].
  rewrite IH by done. rewrite mentions_widgets_fine; [done|]. by apply negb_true_iff.
Qed.

Lemma entries_kept_keys inside d d' : entries_kept inside d d' -> dict_keys d' = dict_keys d.
Proof.
  unfold entries_kept, dict_keys. induction 1 as [|kv kv' d d' [Hk _] _ IH]; [done|].
  simpl. by rewrite Hk, IH.
Qed.

Lemma lookup_map_stripped cells i c' :
  map (fun c => fst (stripped c)) cells !! i = Some c' ->
  exists c, cells !! i = Some c /\ c' = fst (stripped c).
Proof.
  revert i. induction cells as [|c cells IH]; intros [|i]; simpl; try done.
  - intros [= <-]. by exists c.
  - apply IH.
Qed.

Lemma leave_lookup_ne dst residue (fs : disk_state) k :
  dst ≠ k -> leave dst residue fs !! k = fs !! k.
Proof. intros H. destruct residue; simpl; [by rewrite lookup_insert_ne|done]. Qed.

(** ** Paths and the disk *)

Lemma append_ne (p s : string) : s ≠ "" -> p +:+ s ≠ p.
Proof.
  intros Hs. induction p as [|a p IH]; simpl; [done|].
  intros [= H]. by apply IH.
Qed.

Lemma dict_mem_keys k d : dict_mem k d = true <-> k ∈ dict_keys d.
Proof.
  unfold dict_mem, dict_keys. induction d as [|[k' v] d IH]; simpl.
  - split; [done|]. by intros ?%elem_of_nil.
  - rewrite elem_of_cons, <- IH. destruct (String.eqb k k') eqn:E.
    + apply String.eqb_eq in E. by split; [left|].
    + apply String.eqb_neq in E. split; [by right|]. by intros [?|?].
Qed.

Lemma copy2_present outcome src dst fs bytes :
  fs !! src = Some bytes ->
  copy2 outcome src dst fs =
    match outcome with
    | IoOk => (None, <[dst := bytes]> fs)
    | IoError e residue => (Some e, leave dst residue fs)
    end.
Proof. intros H. unfold copy2. by rewrite H. Qed.

Section Protocol.

Variable json_load : string -> load_result.
Variable json_dumps : value -> string.

Lemma backup_path_ne p env : backup_path_of p env ≠ p.
Proof. unfold backup_path_of. by apply append_ne. Qed.

Lemma fix_notebook_loaded p env fs bytes d :
  fs !! p = Some bytes -> read_notebook json_load env bytes = Loaded d ->
  fix_notebook json_load json_dumps p env fs =
    match strip_widgets d with
    | (out, Raise e) => Build_Run (Raise e) fs out None
    | (out, Ok (d', ch)) => persist json_dumps p env fs out d' ch
    end.
Proof. intros Hp Hr. unfold fix_notebook. by rewrite Hp, Hr. Qed.

Lemma persist_line_81 p env fs out d ch :
  at_line_81 (persist json_dumps p env fs out d ch) = Some (d, ch).
Proof.
  unfold persist. destruct ch; [|done].
  destruct (copy2 _ _ _ _) as [[e|] fs1]; [done|].
  destruct (write_text _ _ _ _) as [[e|] fs2]; [|done].
  by destruct (copy2 _ _ _ _) as [[e'|] fs3].
Qed.

(** Line 81 is reached exactly when the pass raised nothing; the
    locals are then the ones [strip_all] describes. *)
Lemma line_81_reached p env fs bytes d d' ch :
  fs !! p = Some bytes -> read_notebook json_load env bytes = Loaded d ->
  at_line_81 (fix_notebook json_load json_dumps p env fs) = Some (d', ch) ->
  (d', ch) = strip_all d /\
  exists out, strip_widgets d = (out, Ok (d', ch)) /\
    fix_notebook json_load json_dumps p env fs = persist json_dumps p env fs out d' ch.
Proof.
  intros Hp Hr. rewrite (fix_notebook_loaded _ _ _ _ _ Hp Hr).
  destruct (strip_widgets d) as [out [[d1 ch1]|e]] eqn:E; [|done].
  rewrite persist_line_81. intros [= -> ->].
  split; [by apply strip_widgets_returns in E|]. by exists out.
Qed.

Lemma persist_no_change p env fs out d :
  persist json_dumps p env fs out d false =
    Build_Run (Ok true) fs
      (out ++ ["No malformed widget metadata found in: " +:+ p]) (Some (d, false)).
Proof. done. Qed.

Lemma persist_all_ok p env fs out d bytes :
  fs !! p = Some bytes -> backup_copy env = IoOk -> write_fixed env = IoOk ->
  persist json_dumps p env fs out d true =
    Build_Run (Ok true)
      (<[p := json_dumps d +:+ newline]> (<[backup_path_of p env := bytes]> fs))
      ((out ++ ["Created backup: " +:+ backup_path_of p env]) ++
         ["Successfully fixed: " +:+ p])
      (Some (d, true)).
Proof.
  intros Hp Hb Hw. unfold persist, write_text.
  by rewrite (copy2_present _ _ _ _ _ Hp), Hb, Hw.
Qed.

(** A run that returns [True] after a change made the backup and wrote
    the file. *)
Lemma persist_success p env fs out d bytes :
  fs !! p = Some bytes ->
  returned (persist json_dumps p env fs out d true) = Ok true ->
  disk (persist json_dumps p env fs out d true) =
    <[p := json_dumps d +:+ newline]> (<[backup_path_of p env := bytes]> fs).
Proof.
  intros Hp. unfold persist. rewrite (copy2_present _ _ _ _ _ Hp).
  destruct (backup_copy env); [|done]. unfold write_text.
  destruct (write_fixed env); [done|]. by destruct (copy2 _ _ _ _) as [[?|] ?]; cbn [returned].
Qed.


Lemma line_81_persist p env fs d' ch :
  at_line_81 (fix_notebook json_load json_dumps p env fs) = Some (d', ch) ->
  exists bytes d out,
    fs !! p = Some bytes /\ read_notebook json_load env bytes = Loaded d /\
    strip_widgets d = (out, Ok (d', ch)) /\
    fix_notebook json_load json_dumps p env fs = persist json_dumps p env fs out d' ch.
Proof.
  unfold fix_notebook. destruct (fs !! p) as [bytes|] eqn:Hp; [|done].
  destruct (read_notebook json_load env bytes) as [d| |] eqn:Hr; try done.
  destruct (strip_widgets d) as [out [[d1 ch1]|e]] eqn:E; [|done].
  rewrite persist_line_81. intros [= -> ->]. by exists bytes, d, out.
Qed.

Lemma persist_backup_fails p env fs out d bytes e r :
  fs !! p = Some bytes -> backup_copy env = IoError e r ->
  persist json_dumps p env fs out d true =
    Build_Run (Ok false) (leave (backup_path_of p env) r fs)
      (out ++ ["Error creating backup: " +:+ e]) (Some (d, true)).
Proof.
  intros Hp Hb. unfold persist. by rewrite (copy2_present _ _ _ _ _ Hp), Hb.
Qed.

Lemma persist_write_fails p env fs out d bytes e r :
  fs !! p = Some bytes -> backup_copy env = IoOk -> write_fixed env = IoError e r ->
  let fs2 := leave p r (<[backup_path_of p env := bytes]> fs) in
  let out2 := (out ++ ["Created backup: " +:+ backup_path_of p env]) ++
              ["Error writing fixed notebook: " +:+ e] in
  persist json_dumps p env fs out d true =
    match restore_copy env with
    | IoOk =>
        Build_Run (Ok false) (<[p := bytes]> fs2)
          (out2 ++ ["Restored from backup due to write error"]) (Some (d, true))
    | IoError e' r' =>
        Build_Run (Ok false) (leave p r' fs2)
          (out2 ++ ["Error restoring backup: " +:+ e']) (Some (d, true))
    end.
Proof.
  intros Hp Hb Hw fs2 out2. unfold persist, write_text.
  rewrite (copy2_present _ _ _ _ _ Hp), Hb, Hw.
  assert (fs2 !! backup_path_of p env = Some bytes) as Hbk.
  { unfold fs2. rewrite leave_lookup_ne by (symmetry; apply backup_path_ne).
    apply lookup_insert_eq. }
  fold fs2. rewrite (copy2_present _ _ _ _ _ Hbk). by destruct (restore_copy env).
Qed.

(** A document of the data model's shape always makes [fix_notebook]
    return a boolean. *)
Lemma shaped_document_returns p env fs bytes d :
  fs !! p = Some bytes -> read_notebook json_load env bytes = Loaded d ->
  notebook_shaped d = true ->
  exists b, returned (fix_notebook json_load json_dumps p env fs) = Ok b.
Proof.
  intros Hp Hr Hshape. rewrite (fix_notebook_loaded _ _ _ _ _ Hp Hr).
  destruct (strip_widgets_shaped d Hshape) as [out ->].
  destruct (strip_all d) as [d' ch]. unfold persist. destruct ch; [|by eexists].
  destruct (copy2 _ _ _ _) as [[?|] ?]; [by eexists|].
  destruct (write_text _ _ _ _) as [[?|] ?]; [|by eexists].
  destruct (copy2 _ _ _ _) as [[?|] ?]; by eexists.
Qed.

(** ** The claims *)

(** C2, as amended.  For every document of the data model's shape whose
    notebook-level [metadata.widgets] is malformed (a mapping without
    'state', not a mapping, or null), provided the backup copy and the
    write of the corrected file both succeed: the entry is removed, the
    outcome is success, the file holds the corrected document and the
    backup holds the bytes the file had before the run. *)
Theorem malformed_notebook_widgets_removed p env fs bytes d w :
  fs !! p = Some bytes -> read_notebook json_load env bytes = Loaded d ->
  notebook_shaped d = true ->
  metadata_widgets d = Some w -> has_valid_widget_state w = false ->
  backup_copy env = IoOk -> write_fixed env = IoOk ->
  let run := fix_notebook json_load json_dumps p env fs in
  returned run = Ok true /\
  exists d', at_line_81 run = Some (d', true) /\
    metadata_widgets d' = None /\
    disk run !! p = Some (json_dumps d' +:+ newline) /\
    disk run !! backup_path_of p env = Some bytes.
Proof.
  intros Hp Hr Hshape Hw Hbad Hb Hwr run. unfold run.
  rewrite (fix_notebook_loaded _ _ _ _ _ Hp Hr).
  destruct (strip_widgets_shaped d Hshape) as [out ->].
  assert (widgets_fine d = false) as Hfine by (unfold widgets_fine; by rewrite Hw).
  pose proof (strip_all_flag d) as Hflag. rewrite Hfine in Hflag. cbn in Hflag.
  pose proof (strip_all_widgets d) as Hrw. rewrite stripped_widgets, Hfine in Hrw.
  destruct (strip_all d) as [d' ch]. cbn [fst snd] in *. subst ch.
  rewrite (persist_all_ok _ _ _ _ _ _ Hp Hb Hwr). cbn [returned at_line_81 disk].
  split; [done|]. exists d'. split; [done|]. split; [done|]. split.
  - apply lookup_insert_eq.
  - rewrite lookup_insert_ne by (symmetry; apply backup_path_ne).
    apply lookup_insert_eq.
Qed.

(** C3.  After a successful repair the resulting document, which is
    what the file holds, has no [metadata.widgets] entry at notebook
    level or in a cell unless that entry is a mapping with the key
    'state'; every widgets entry it has was there before, unmodified,
    and no cell was added or dropped. *)
Theorem successful_repair_leaves_valid_widgets_only p env fs bytes d :
  fs !! p = Some bytes -> read_notebook json_load env bytes = Loaded d ->
  returned (fix_notebook json_load json_dumps p env fs) = Ok true ->
  exists d' ch,
    at_line_81 (fix_notebook json_load json_dumps p env fs) = Some (d', ch) /\
    disk (fix_notebook json_load json_dumps p env fs) !! p =
      Some (if ch then json_dumps d' +:+ newline else bytes) /\
    (ch = false -> d' = d) /\
    (forall w, metadata_widgets d' = Some w ->
       has_valid_widget_state w = true /\ metadata_widgets d = Some w) /\
    length (cells_of d') = length (cells_of d) /\
    (forall i c' w, cells_of d' !! i = Some c' -> metadata_widgets c' = Some w ->
       has_valid_widget_state w = true /\
       exists c, cells_of d !! i = Some c /\ metadata_widgets c = Some w).
Proof.
  intros Hp Hr. rewrite (fix_notebook_loaded _ _ _ _ _ Hp Hr).
  destruct (strip_widgets d) as [out [[d' ch]|e]] eqn:E; [|done].
  intros Hok. exists d', ch. rewrite persist_line_81. split; [done|].
  apply strip_widgets_returns in E.
  assert (d' = fst (strip_all d)) as Hd by (by rewrite <- E).
  assert (ch = snd (strip_all d)) as Hc by (by rewrite <- E).
  split; [|split; [|split; [|split]]].
  - destruct ch.
    + rewrite (persist_success _ _ _ _ _ _ Hp Hok). apply lookup_insert_eq.
    + by rewrite persist_no_change.
  - intros ->. subst d'. by apply strip_all_unchanged.
  - intros w. subst d'. rewrite strip_all_widgets, stripped_widgets.
    destruct (widgets_fine d) eqn:Hf; [|done]. intros Hw. split; [|done].
    unfold widgets_fine in Hf. by rewrite Hw in Hf.
  - subst d'. by rewrite strip_all_cells, length_map.
  - intros i c' w. subst d'. rewrite strip_all_cells.
    intros (c & Hi & ->)%lookup_map_stripped. rewrite stripped_widgets.
    destruct (widgets_fine c) eqn:Hf; [|done]. intros Hw. split; [|by exists c].
    unfold widgets_fine in Hf. by rewrite Hw in Hf.
Qed.


(** C5, at a failing input.  A file that parses to a mapping whose
    [metadata] is null makes ['widgets' in notebook['metadata']] raise
    [TypeError]; nothing catches it: the call ends with the exception,
    having printed nothing and left the disk alone. *)
Theorem null_metadata_escapes p env fs bytes :
  fs !! p = Some bytes ->
  read_notebook json_load env bytes = Loaded (JDict [("metadata", JNull)]) ->
  fix_notebook json_load json_dumps p env fs = Build_Run (Raise TypeError) fs [] None.
Proof.
  intros Hp Hr. by rewrite (fix_notebook_loaded _ _ _ _ _ Hp Hr).
Qed.

(** X13.  A document of the data model's shape in which the key
    'widgets' occurs nowhere, and more generally one whose widgets
    entries are all valid, reaches line 81 unchanged with [changes_made]
    false; and whenever line 81 is reached with [changes_made] false the
    run is a no-op: the document is the parsed one, the outcome is
    success, the disk is the same (no backup, no write) and the last
    message printed says that nothing malformed was found. *)
Theorem no_removal_is_a_noop p env fs bytes d :
  fs !! p = Some bytes -> read_notebook json_load env bytes = Loaded d ->
  let run := fix_notebook json_load json_dumps p env fs in
  (notebook_shaped d = true -> mentions "widgets" d = false ->
     at_line_81 run = Some (d, false)) /\
  (notebook_shaped d = true ->
     widgets_fine d = true -> forallb widgets_fine (cells_of d) = true ->
     at_line_81 run = Some (d, false)) /\
  (forall d', at_line_81 run = Some (d', false) ->
     d' = d /\ returned run = Ok true /\ disk run = fs /\
     last (stdout run) = Some ("No malformed widget metadata found in: " +:+ p)).
Proof.
  intros Hp Hr run.
  assert (notebook_shaped d = true ->
          widgets_fine d = true -> forallb widgets_fine (cells_of d) = true ->
          at_line_81 run = Some (d, false)) as Hfine.
  { intros Hshape Hn Hc. unfold run. rewrite (fix_notebook_loaded _ _ _ _ _ Hp Hr).
    destruct (strip_widgets_shaped d Hshape) as [out ->].
    pose proof (strip_all_flag d) as Hflag. rewrite Hn, Hc in Hflag.
    pose proof (strip_all_unchanged d Hflag) as Hd.
    destruct (strip_all d) as [d' ch]. cbn [fst snd] in *. subst.
    apply persist_line_81. }
  split; [|split; [done|]].
  - intros Hshape Hno. apply Hfine; [done|..].
    + by apply mentions_widgets_fine.
    + by apply mentions_cells_fine.
  - intros d' H81. destruct (line_81_reached _ _ _ _ _ _ _ Hp Hr H81) as (Hrep & out & _ & Hrun).
    subst run. rewrite Hrun, persist_no_change. cbn [returned disk stdout].
    split; [|split; [done|split; [done|apply last_snoc]]].
    pose proof (strip_all_unchanged d) as Hd. rewrite <- Hrep in Hd. by apply Hd.
Qed.

(** C7.  When a change occurred the backup copy comes first.  If it
    fails, the outcome is failure and the original file is untouched
    (the disk differs at most by what the failed copy left at the backup
    path).  If it succeeds and the write fails, the outcome is failure
    whether or not the restoration works, the backup holds the original
    bytes, the restoration from it is attempted and its result is the
    last line printed: on success the file holds the original bytes
    again. *)
Theorem backup_precedes_write_and_restore p env fs d' :
  let run := fix_notebook json_load json_dumps p env fs in
  at_line_81 run = Some (d', true) ->
  exists bytes, fs !! p = Some bytes /\
    (forall e r, backup_copy env = IoError e r ->
       returned run = Ok false /\
       disk run !! p = Some bytes /\
       disk run = leave (backup_path_of p env) r fs /\
       last (stdout run) = Some ("Error creating backup: " +:+ e)) /\
    (forall e r, backup_copy env = IoOk -> write_fixed env = IoError e r ->
       returned run = Ok false /\
       disk run !! backup_path_of p env = Some bytes /\
       "Error writing fixed notebook: " +:+ e ∈ stdout run /\
       match restore_copy env with
       | IoOk =>
           disk run !! p = Some bytes /\
           last (stdout run) = Some "Restored from backup due to write error"
       | IoError e' r' =>
           disk run = leave p r' (leave p r (<[backup_path_of p env := bytes]> fs)) /\
           last (stdout run) = Some ("Error restoring backup: " +:+ e')
       end).
Proof.
  intros run (bytes & d & out & Hp & _ & _ & Hrun)%line_81_persist.
  exists bytes. split; [done|]. subst run. split.
  - intros e r Hb. rewrite Hrun, (persist_backup_fails _ _ _ _ _ _ _ _ Hp Hb).
    cbn [returned disk stdout]. split; [done|split; [|split; [done|apply last_snoc]]].
    by rewrite leave_lookup_ne by apply backup_path_ne.
  - intros e r Hb Hw. rewrite Hrun, (persist_write_fails _ _ _ _ _ _ _ _ Hp Hb Hw).
    assert (leave p r (<[backup_path_of p env := bytes]> fs) !! backup_path_of p env
            = Some bytes) as Hbk.
    { rewrite leave_lookup_ne by (symmetry; apply backup_path_ne). apply lookup_insert_eq. }
    destruct (restore_copy env) as [|e' r']; cbn [returned disk stdout].
    + split; [done|]. split.
      { by rewrite lookup_insert_ne by (symmetry; apply backup_path_ne). }
      split; [|split; [apply lookup_insert_eq|apply last_snoc]].
      rewrite !elem_of_app, !list_elem_of_singleton. auto.
    + split; [done|]. split.
      { by rewrite leave_lookup_ne by (symmetry; apply backup_path_ne). }
      split; [|split; [done|apply last_snoc]].
      rewrite !elem_of_app, !list_elem_of_singleton. auto.
Qed.

(** C8.  Whatever the document, what reaches line 81, and so what is
    written when the run succeeds after a change, is the parsed document
    entry for entry: the same keys in the same order at the top level
    and in every cell, the same values everywhere except that a
    [metadata] block of the notebook or of a cell may have lost its
    [widgets] entry, the other entries of the block staying in their
    order. *)
Theorem repair_alters_only_widgets p env fs bytes d d' ch :
  fs !! p = Some bytes -> read_notebook json_load env bytes = Loaded d ->
  let run := fix_notebook json_load json_dumps p env fs in
  at_line_81 run = Some (d', ch) ->
  notebook_kept d d' /\
  (forall top, d = JDict top -> exists top', d' = JDict top' /\ dict_keys top' = dict_keys top) /\
  (returned run = Ok true -> ch = true -> disk run !! p = Some (json_dumps d' +:+ newline)) /\
  (ch = false -> disk run = fs).
Proof.
  intros Hp Hr run H81. subst run.
  destruct (line_81_reached _ _ _ _ _ _ _ Hp Hr H81) as (Hrep & out & _ & Hrun).
  assert (notebook_kept d d') as Hkept.
  { pose proof (strip_all_kept d) as Hk. by rewrite <- Hrep in Hk. }
  split; [done|]. split; [|split].
  - intros top ->. destruct Hkept as [->|(t & t' & [= <-] & -> & Hk)]; [by exists top|].
    exists t'. split; [done|]. by eapply entries_kept_keys.
  - intros Hok ->. rewrite Hrun in *.
    rewrite (persist_success _ _ _ _ _ _ Hp Hok). apply lookup_insert_eq.
  - intros ->. by rewrite Hrun, persist_no_change.
Qed.

(** C9.  A notebook-level [metadata.widgets] that is a mapping with the
    key 'state' is still there, unchanged, at line 81.  And repair is
    idempotent: after a successful run, a second run that reads back the
    document the first one left returns success, leaves the disk as the
    first run left it, and reaches line 81 with that same document and
    [changes_made] false. *)
Theorem valid_widgets_kept_and_second_run_is_noop p env env2 fs bytes d d' ch :
  fs !! p = Some bytes -> read_notebook json_load env bytes = Loaded d ->
  let run := fix_notebook json_load json_dumps p env fs in
  at_line_81 run = Some (d', ch) ->
  (forall w, metadata_widgets d = Some w -> has_valid_widget_state w = true ->
     metadata_widgets d' = Some w) /\
  (returned run = Ok true ->
   (forall bytes', disk run !! p = Some bytes' ->
      read_notebook json_load env2 bytes' = Loaded d') ->
   let run2 := fix_notebook json_load json_dumps p env2 (disk run) in
   returned run2 = Ok true /\ disk run2 = disk run /\ at_line_81 run2 = Some (d', false)).
Proof.
  intros Hp Hr run H81. subst run.
  destruct (line_81_reached _ _ _ _ _ _ _ Hp Hr H81) as (Hrep & out & Hrepair & Hrun).
  split.
  - intros w Hw Hvalid.
    assert (d' = fst (strip_all d)) as -> by (by rewrite <- Hrep).
    rewrite strip_all_widgets, stripped_widgets. unfold widgets_fine. by rewrite Hw, Hvalid.
  - intros Hok Hback run2. subst run2.
    assert (exists bytes', disk (fix_notebook json_load json_dumps p env fs) !! p = Some bytes')
      as [bytes' Hp'].
    { rewrite Hrun in *. destruct ch.
      - rewrite (persist_success _ _ _ _ _ _ Hp Hok). eexists. apply lookup_insert_eq.
      - rewrite persist_no_change. by exists bytes. }
    rewrite (fix_notebook_loaded _ _ _ _ _ Hp' (Hback _ Hp')).
    apply strip_widgets_again in Hrepair. cbn [fst] in Hrepair. rewrite Hrepair.
    by rewrite persist_no_change.
Qed.

(** C10.  The in-memory transformation is a function of the parsed
    document: two runs, on whatever paths, disks, clocks and
    environments, that parse equal documents reach line 81 with equal
    documents and equal [changes_made] (or both fail to reach it), and
    end the pass with the same exception if any. *)
Theorem in_memory_repair_is_deterministic p1 p2 env1 env2 fs1 fs2 bytes1 bytes2 d :
  fs1 !! p1 = Some bytes1 -> fs2 !! p2 = Some bytes2 ->
  read_notebook json_load env1 bytes1 = Loaded d ->
  read_notebook json_load env2 bytes2 = Loaded d ->
  let run1 := fix_notebook json_load json_dumps p1 env1 fs1 in
  let run2 := fix_notebook json_load json_dumps p2 env2 fs2 in
  at_line_81 run1 = at_line_81 run2 /\
  (forall e, returned run1 = Raise e <-> returned run2 = Raise e) /\
  at_line_81 run1 =
    match strip_widgets d with (_, Ok locals) => Some locals | (_, Raise _) => None end.
Proof.
  intros Hp1 Hp2 Hr1 Hr2 run1 run2. subst run1 run2.
  rewrite (fix_notebook_loaded _ _ _ _ _ Hp1 Hr1), (fix_notebook_loaded _ _ _ _ _ Hp2 Hr2).
  destruct (strip_widgets d) as [out [[d' ch]|e]]; [|done].
  rewrite !persist_line_81. split; [done|]. split; [|done].
  assert (forall p env fs e, returned (persist json_dumps p env fs out d' ch) ≠ Raise e) as Hno.
  { intros p env fs e. unfold persist. destruct ch; [|done].
    destruct (copy2 _ _ _ _) as [[?|] ?]; [done|].
    destruct (write_text _ _ _ _) as [[?|] ?]; [|done].
    by destruct (copy2 _ _ _ _) as [[?|] ?]. }
  intros e. split; intros H; by apply Hno in H.
Qed.

End Protocol.

(** C1.  [has_valid_widget_state] is true exactly on a mapping that has
    the key 'state'.  Its result on a mapping depends on the keys only,
    so what is stored under 'state' is not inspected; null, booleans,
    numbers, strings and lists give false.  It is a function from values
    to booleans: it prints nothing and touches neither the document nor
    the disk. *)
Theorem has_valid_widget_state_spec :
  (forall v, has_valid_widget_state v = true <->
             exists d, v = JDict d /\ "state" ∈ dict_keys d) /\
  (forall d d', dict_keys d = dict_keys d' ->
     has_valid_widget_state (JDict d) = has_valid_widget_state (JDict d')) /\
  (forall d x, has_valid_widget_state (JDict (dict_put "state" x d)) = true) /\
  has_valid_widget_state JNull = false /\
  (forall b, has_valid_widget_state (JBool b) = false) /\
  (forall n, has_valid_widget_state (JInt n) = false) /\
  (forall f, has_valid_widget_state (JFloat f) = false) /\
  (forall s, has_valid_widget_state (JStr s) = false) /\
  (forall l, has_valid_widget_state (JList l) = false).
Proof.
  split; [|split; [|split]]; [| | |by repeat split].
  - intros v. split.
    + destruct v as [| | | | | | d]; try done. intros H. exists d. split; [done|].
      by apply dict_mem_keys.
    + intros (d & -> & H). by apply dict_mem_keys.
  - intros d d' Hk. cbn [has_valid_widget_state]. apply eq_true_iff_eq.
    by rewrite !dict_mem_keys, Hk.
  - intros d x. cbn [has_valid_widget_state]. unfold dict_mem. by rewrite dict_get_put_eq.
Qed.

(** * The theorems at the sample files *)

Ltac by_computation := vm_compute; reflexivity.

Example sample_backup_path :
  backup_path_of "nb.ipynb" quiet = "nb.ipynb.bak-20240309_140507".
Proof. by_computation. Qed.

(** The first scenario of the specification, end to end. *)
Example sample_run_malformed :
  fix_notebook sample_load sample_dumps "nb.ipynb" quiet (disk_with text_malformed) =
    Build_Run (Ok true)
      (<["nb.ipynb" := text_fixed +:+ newline]>
         (<["nb.ipynb.bak-20240309_140507" := text_malformed]> (disk_with text_malformed)))
      ["Removing malformed widgets metadata at notebook level";
       "Created backup: nb.ipynb.bak-20240309_140507";
       "Successfully fixed: nb.ipynb"]
      (Some (doc_fixed, true)).
Proof. by_computation. Qed.

(** C2 as stated fails: the notebook-level widgets entry is malformed,
    the backup copy is refused, and the outcome is failure with no
    backup on the disk. *)
Lemma backup_refused_no_success :
  disk_with text_malformed !! "nb.ipynb" = Some text_malformed /\
  read_notebook sample_load backup_denied text_malformed = Loaded doc_malformed /\
  notebook_shaped doc_malformed = true /\
  metadata_widgets doc_malformed = Some (JDict [("foo", JInt 1)]) /\
  has_valid_widget_state (JDict [("foo", JInt 1)]) = false /\
  fix_notebook sample_load sample_dumps "nb.ipynb" backup_denied (disk_with text_malformed) =
    Build_Run (Ok false) (disk_with text_malformed)
      ["Removing malformed widgets metadata at notebook level";
       "Error creating backup: [Errno 13] Permission denied"]
      (Some (doc_fixed, true)) /\
  disk_with text_malformed !! backup_path_of "nb.ipynb" backup_denied = None.
Proof. repeat split; by_computation. Qed.

Lemma malformed_notebook_widgets_removed_witness :
  disk_with text_malformed !! "nb.ipynb" = Some text_malformed /\
  read_notebook sample_load quiet text_malformed = Loaded doc_malformed /\
  notebook_shaped doc_malformed = true /\
  metadata_widgets doc_malformed = Some (JDict [("foo", JInt 1)]) /\
  has_valid_widget_state (JDict [("foo", JInt 1)]) = false /\
  backup_copy quiet = IoOk /\ write_fixed quiet = IoOk /\
  returned (fix_notebook sample_load sample_dumps "nb.ipynb" quiet (disk_with text_malformed))
    = Ok true.
Proof.
  assert (disk_with text_malformed !! "nb.ipynb" = Some text_malformed) as H1
    by by_computation.
  assert (read_notebook sample_load quiet text_malformed = Loaded doc_malformed) as H2
    by by_computation.
  assert (notebook_shaped doc_malformed = true) as H3 by by_computation.
  assert (metadata_widgets doc_malformed = Some (JDict [("foo", JInt 1)])) as H4
    by by_computation.
  assert (has_valid_widget_state (JDict [("foo", JInt 1)]) = false) as H5
    by by_computation.
  do 5 (split; [assumption|]). split; [reflexivity|]. split; [reflexivity|].
  apply (malformed_notebook_widgets_removed sample_load sample_dumps
           "nb.ipynb" quiet (disk_with text_malformed) text_malformed doc_malformed
           (JDict [("foo", JInt 1)]) H1 H2 H3 H4 H5 eq_refl eq_refl).
Defined.

Lemma successful_repair_leaves_valid_widgets_only_witness :
  disk_with text_malformed !! "nb.ipynb" = Some text_malformed /\
  read_notebook sample_load quiet text_malformed = Loaded doc_malformed /\
  returned (fix_notebook sample_load sample_dumps "nb.ipynb" quiet (disk_with text_malformed))
    = Ok true /\
  exists d' ch,
    at_line_81 (fix_notebook sample_load sample_dumps "nb.ipynb" quiet (disk_with text_malformed))
      = Some (d', ch) /\
    forall w, metadata_widgets d' = Some w -> has_valid_widget_state w = true.
Proof.
  assert (disk_with text_malformed !! "nb.ipynb" = Some text_malformed) as H1
    by by_computation.
  assert (read_notebook sample_load quiet text_malformed = Loaded doc_malformed) as H2
    by by_computation.
  assert (returned (fix_notebook sample_load sample_dumps "nb.ipynb" quiet
                      (disk_with text_malformed)) = Ok true) as H3 by by_computation.
  repeat (split; [assumption|]).
  destruct (successful_repair_leaves_valid_widgets_only sample_load sample_dumps
              "nb.ipynb" quiet (disk_with text_malformed) text_malformed doc_malformed
              H1 H2 H3) as (d' & ch & H81 & _ & _ & Hw & _).
  exists d', ch. split; [exact H81|]. intros w Hd'. exact (proj1 (Hw w Hd')).
Defined.


Lemma null_metadata_escapes_witness :
  disk_with text_null_metadata !! "nb.ipynb" = Some text_null_metadata /\
  read_notebook sample_load quiet text_null_metadata = Loaded (JDict [("metadata", JNull)]) /\
  fix_notebook sample_load sample_dumps "nb.ipynb" quiet (disk_with text_null_metadata) =
    Build_Run (Raise TypeError) (disk_with text_null_metadata) [] None.
Proof.
  assert (disk_with text_null_metadata !! "nb.ipynb" = Some text_null_metadata) as H1
    by by_computation.
  assert (read_notebook sample_load quiet text_null_metadata
          = Loaded (JDict [("metadata", JNull)])) as H2 by by_computation.
  repeat (split; [assumption|]).
  apply (null_metadata_escapes sample_load sample_dumps
           "nb.ipynb" quiet (disk_with text_null_metadata) text_null_metadata H1 H2).
Defined.

Lemma no_removal_is_a_noop_witness :
  disk_with text_valid !! "nb.ipynb" = Some text_valid /\
  read_notebook sample_load quiet text_valid = Loaded doc_valid /\
  notebook_shaped doc_valid = true /\
  widgets_fine doc_valid = true /\
  forallb widgets_fine (cells_of doc_valid) = true /\
  at_line_81 (fix_notebook sample_load sample_dumps "nb.ipynb" quiet (disk_with text_valid))
    = Some (doc_valid, false) /\
  returned (fix_notebook sample_load sample_dumps "nb.ipynb" quiet (disk_with text_valid))
    = Ok true /\
  disk (fix_notebook sample_load sample_dumps "nb.ipynb" quiet (disk_with text_valid))
    = disk_with text_valid.
Proof.
  assert (disk_with text_valid !! "nb.ipynb" = Some text_valid) as H1 by by_computation.
  assert (read_notebook sample_load quiet text_valid = Loaded doc_valid) as H2
    by by_computation.
  assert (notebook_shaped doc_valid = true) as H3 by by_computation.
  assert (widgets_fine doc_valid = true) as H4 by by_computation.
  assert (forallb widgets_fine (cells_of doc_valid) = true) as H5 by by_computation.
  repeat (split; [assumption|]).
  destruct (no_removal_is_a_noop sample_load sample_dumps
              "nb.ipynb" quiet (disk_with text_valid) text_valid doc_valid H1 H2)
    as (_ & Hfine & Hnoop).
  pose proof (Hfine H3 H4 H5) as H81.
  destruct (Hnoop doc_valid H81) as (_ & Hret & Hdisk & _).
  split; [exact H81|]. split; [exact Hret|exact Hdisk].
Defined.

Lemma backup_precedes_write_and_restore_witness :
  at_line_81 (fix_notebook sample_load sample_dumps "nb.ipynb" disk_full (disk_with text_malformed))
    = Some (doc_fixed, true) /\
  backup_copy disk_full = IoOk /\
  write_fixed disk_full = IoError "[Errno 28] No space left on device" (Some "{") /\
  returned (fix_notebook sample_load sample_dumps "nb.ipynb" disk_full (disk_with text_malformed))
    = Ok false /\
  disk (fix_notebook sample_load sample_dumps "nb.ipynb" disk_full (disk_with text_malformed))
    !! "nb.ipynb" = Some text_malformed.
Proof.
  assert (at_line_81 (fix_notebook sample_load sample_dumps "nb.ipynb" disk_full
                        (disk_with text_malformed)) = Some (doc_fixed, true)) as H1
    by by_computation.
  split; [assumption|]. split; [reflexivity|]. split; [reflexivity|].
  destruct (backup_precedes_write_and_restore sample_load sample_dumps
              "nb.ipynb" disk_full (disk_with text_malformed) doc_fixed H1)
    as (bytes & Hp & _ & Hwrite).
  assert (bytes = text_malformed) as ->.
  { assert (disk_with text_malformed !! "nb.ipynb" = Some text_malformed) as Hp'
      by by_computation.
    rewrite Hp' in Hp. by injection Hp. }
  destruct (Hwrite _ _ eq_refl eq_refl) as (Hret & _ & _ & Hrestore).
  split; [exact Hret|]. exact (proj1 Hrestore).
Defined.

Lemma repair_alters_only_widgets_witness :
  disk_with text_malformed !! "nb.ipynb" = Some text_malformed /\
  read_notebook sample_load quiet text_malformed = Loaded doc_malformed /\
  at_line_81 (fix_notebook sample_load sample_dumps "nb.ipynb" quiet (disk_with text_malformed))
    = Some (doc_fixed, true) /\
  notebook_kept doc_malformed doc_fixed.
Proof.
  assert (disk_with text_malformed !! "nb.ipynb" = Some text_malformed) as H1
    by by_computation.
  assert (read_notebook sample_load quiet text_malformed = Loaded doc_malformed) as H2
    by by_computation.
  assert (at_line_81 (fix_notebook sample_load sample_dumps "nb.ipynb" quiet
                        (disk_with text_malformed)) = Some (doc_fixed, true)) as H3
    by by_computation.
  repeat (split; [assumption|]).
  exact (proj1 (repair_alters_only_widgets sample_load sample_dumps
                  "nb.ipynb" quiet (disk_with text_malformed) text_malformed
                  doc_malformed doc_fixed true H1 H2 H3)).
Defined.

Lemma valid_widgets_kept_and_second_run_is_noop_witness :
  disk_with text_malformed !! "nb.ipynb" = Some text_malformed /\
  read_notebook sample_load quiet text_malformed = Loaded doc_malformed /\
  at_line_81 (fix_notebook sample_load sample_dumps "nb.ipynb" quiet (disk_with text_malformed))
    = Some (doc_fixed, true) /\
  returned (fix_notebook sample_load sample_dumps "nb.ipynb" quiet (disk_with text_malformed))
    = Ok true /\
  (forall bytes',
     disk (fix_notebook sample_load sample_dumps "nb.ipynb" quiet (disk_with text_malformed))
       !! "nb.ipynb" = Some bytes' ->
     read_notebook sample_load quiet bytes' = Loaded doc_fixed) /\
  returned
    (fix_notebook sample_load sample_dumps "nb.ipynb" quiet
       (disk (fix_notebook sample_load sample_dumps "nb.ipynb" quiet
                (disk_with text_malformed)))) = Ok true.
Proof.
  assert (disk_with text_malformed !! "nb.ipynb" = Some text_malformed) as H1
    by by_computation.
  assert (read_notebook sample_load quiet text_malformed = Loaded doc_malformed) as H2
    by by_computation.
  assert (at_line_81 (fix_notebook sample_load sample_dumps "nb.ipynb" quiet
                        (disk_with text_malformed)) = Some (doc_fixed, true)) as H3
    by by_computation.
  assert (returned (fix_notebook sample_load sample_dumps "nb.ipynb" quiet
                      (disk_with text_malformed)) = Ok true) as H4 by by_computation.
  assert (forall bytes',
            disk (fix_notebook sample_load sample_dumps "nb.ipynb" quiet
                    (disk_with text_malformed)) !! "nb.ipynb" = Some bytes' ->
            read_notebook sample_load quiet bytes' = Loaded doc_fixed) as H5.
  { assert (disk (fix_notebook sample_load sample_dumps "nb.ipynb" quiet
                    (disk_with text_malformed)) !! "nb.ipynb"
            = Some (text_fixed +:+ newline)) as Hd by by_computation.
    intros bytes' Hb. rewrite Hd in Hb.
    assert (bytes' = text_fixed +:+ newline) as -> by congruence.
    by_computation. }
  repeat (split; [assumption|]).
  destruct (valid_widgets_kept_and_second_run_is_noop sample_load sample_dumps
              "nb.ipynb" quiet quiet (disk_with text_malformed) text_malformed
              doc_malformed doc_fixed true H1 H2 H3) as [_ Hsecond].
  exact (proj1 (Hsecond H4 H5)).
Defined.

Lemma in_memory_repair_is_deterministic_witness :
  disk_with text_malformed !! "nb.ipynb" = Some text_malformed /\
  ({[ "copy.ipynb" := text_malformed ]} : disk_state) !! "copy.ipynb" = Some text_malformed /\
  read_notebook sample_load quiet text_malformed = Loaded doc_malformed /\
  read_notebook sample_load backup_denied text_malformed = Loaded doc_malformed /\
  at_line_81 (fix_notebook sample_load sample_dumps "nb.ipynb" quiet (disk_with text_malformed))
  = at_line_81 (fix_notebook sample_load sample_dumps "copy.ipynb" backup_denied
                  {[ "copy.ipynb" := text_malformed ]}).
Proof.
  assert (disk_with text_malformed !! "nb.ipynb" = Some text_malformed) as H1
    by by_computation.
  assert (({[ "copy.ipynb" := text_malformed ]} : disk_state) !! "copy.ipynb"
          = Some text_malformed) as H2 by by_computation.
  assert (read_notebook sample_load quiet text_malformed = Loaded doc_malformed) as H3
    by by_computation.
  assert (read_notebook sample_load backup_denied text_malformed = Loaded doc_malformed) as H4
    by by_computation.
  repeat (split; [assumption|]).
  exact (proj1 (in_memory_repair_is_deterministic sample_load sample_dumps
                  "nb.ipynb" "copy.ipynb" quiet backup_denied
                  (disk_with text_malformed) {[ "copy.ipynb" := text_malformed ]}
                  text_malformed text_malformed doc_malformed H1 H2 H3 H4)).
Defined.

(** Other parsed values on which the pass raises: a number, a [cells]
    that is a number, a cell that is a number, a [metadata] that is a
    list holding the string 'widgets'. *)
Example other_shapes_raise :
  snd (strip_widgets (JInt 5)) = Raise TypeError /\
  snd (strip_widgets (JDict [("cells", JInt 5)])) = Raise TypeError /\
  snd (strip_widgets (JDict [("cells", JList [JInt 1])])) = Raise TypeError /\
  snd (strip_widgets (JDict [("metadata", JList [JStr "widgets"])])) = Raise TypeError.
Proof. repeat split; by_computation. Qed.

(** * Further properties of the pass *)

(** ** When the pass raises *)

Lemma level_result line owner :
  snd (level line owner) =
    if owner_tolerated owner then Ok (stripped owner) else Raise TypeError.
Proof.
  unfold level, stripped, owner_tolerated, block_tolerated.
  destruct owner as [| | | | s | l | d]; run_py; try done.
  - destruct (str_contains "metadata" s); done.
  - destruct (existsb (is_str "metadata") l); done.
  - unfold dict_mem. destruct (dict_get "metadata" d) as [m|] eqn:Em; [|done].
    run_py. destruct m as [| | | | s | l | dm]; run_py; try done.
    + destruct (str_contains "widgets" s); done.
    + destruct (existsb (is_str "widgets") l); done.
    + unfold dict_mem. destruct (dict_get "widgets" dm) as [w|] eqn:Ew; [|done].
      run_py. destruct (has_valid_widget_state w) eqn:Ev; run_py; done.
Qed.

Lemma cells_loop_result cells : forall i,
  snd (cells_loop i cells) =
    if forallb owner_tolerated cells
    then Ok (map (fun c => fst (stripped c)) cells,
             existsb (fun c => snd (stripped c)) cells)
    else Raise TypeError.
Proof.
  induction cells as [|cell rest IH]; intros i; cbn [cells_loop forallb]; [done|].
  rewrite cell_level_eq. pose proof (level_result
    ("Removing malformed widgets metadata from cell " +:+ pretty i) cell) as Hc.
  destruct (level _ cell) as [out1 r1]. cbn [snd] in Hc. subst r1.
  destruct (owner_tolerated cell); [|done]. cbn [andb bind].
  specialize (IH (S i)). destruct (cells_loop (S i) rest) as [out2 r2].
  cbn [snd] in IH. subst r2. cbn [map existsb].
  destruct (stripped cell) as [c' ch].
  by destruct (forallb owner_tolerated rest).
Qed.

Lemma one_character_tolerated c : str_contains "metadata" (String c EmptyString) = false.
Proof.
  cbn [str_contains]. unfold String.prefix.
  by destruct (ascii_dec _ _).
Qed.

Lemma characters_tolerated s :
  forallb owner_tolerated
    (map (fun c => JStr (String c EmptyString)) (list_ascii_of_string s)) = true.
Proof.
  induction (list_ascii_of_string s) as [|c l IH]; [done|].
  cbn [map forallb owner_tolerated]. by rewrite one_character_tolerated, IH.
Qed.

Lemma keys_tolerated (cd : dict) :
  forallb owner_tolerated (map (fun kv => JStr (fst kv)) cd) =
  forallb (fun kv => negb (str_contains "metadata" (fst kv))) cd.
Proof. induction cd as [|kv cd IH]; [done|]. cbn [map forallb owner_tolerated]. by rewrite IH. Qed.

Lemma cells_pass_result notebook ch :
  snd (cells_pass notebook ch) =
    if cells_tolerated notebook
    then Ok match notebook with
            | JDict d1 =>
                match dict_get "cells" d1 with
                | Some (JList cells) =>
                    (JDict (dict_put "cells" (JList (map (fun c => fst (stripped c)) cells)) d1),
                     ch || existsb (fun c => snd (stripped c)) cells)
                | _ => (notebook, ch)
                end
            | _ => (notebook, ch)
            end
    else Raise TypeError.
Proof.
  unfold cells_pass, cells_tolerated.
  destruct notebook as [| | | | s | l | d]; run_py; try done.
  - by destruct (str_contains "cells" s).
  - by destruct (existsb (is_str "cells") l).
  - unfold dict_mem. destruct (dict_get "cells" d) as [cells|] eqn:Ec; [|done].
    run_py. destruct cells as [| | | | s | l | cd]; cbn [py_iter py_rebuild]; try done.
    + pose proof (cells_loop_result
        (map (fun c => JStr (String c EmptyString)) (list_ascii_of_string s)) 0) as Hl.
      rewrite characters_tolerated in Hl.
      destruct (cells_loop 0 _) as [out r]. cbn [snd] in Hl. subst r.
      destruct (str_items_stay (fun c => String c EmptyString) (list_ascii_of_string s))
        as [_ ->].
      cbn. by rewrite (dict_put_same _ _ _ Ec), orb_false_r.
    + pose proof (cells_loop_result l 0) as Hl.
      destruct (cells_loop 0 l) as [out r]. cbn [snd] in Hl. subst r.
      by destruct (forallb owner_tolerated l).
    + pose proof (cells_loop_result (map (fun kv => JStr (fst kv)) cd) 0) as Hl.
      rewrite keys_tolerated in Hl.
      destruct (cells_loop 0 _) as [out r]. cbn [snd] in Hl. subst r.
      destruct (forallb _ cd); [|done].
      destruct (str_items_stay fst cd) as [_ ->].
      cbn. by rewrite (dict_put_same _ _ _ Ec), orb_false_r.
Qed.

Lemma cells_tolerated_stripped notebook :
  cells_tolerated (fst (stripped notebook)) = cells_tolerated notebook.
Proof.
  destruct notebook as [| | | | | | d]; try done.
  destruct (stripped_dict d) as (d1 & -> & _ & Hget). cbn [cells_tolerated].
  by rewrite Hget.
Qed.

Lemma pass_result notebook :
  snd (strip_widgets notebook) =
    if tolerated notebook then Ok (strip_all notebook) else Raise TypeError.
Proof.
  unfold strip_widgets, tolerated, strip_all. rewrite notebook_level_eq.
  pose proof (level_result "Removing malformed widgets metadata at notebook level"
                notebook) as Hn.
  destruct (level _ notebook) as [out1 r1]. cbn [snd] in Hn. subst r1.
  destruct (owner_tolerated notebook); [|done]. cbn [andb bind].
  rewrite <- (cells_tolerated_stripped notebook).
  destruct (stripped notebook) as [nb1 ch]. cbn [fst].
  pose proof (cells_pass_result nb1 ch) as Hc.
  destruct (cells_pass nb1 ch) as [out2 r2]. cbn [snd] in *. subst r2.
  by destruct (cells_tolerated nb1).
Qed.

(** X1.  The pass either returns the document with every malformed
    notebook-level and cell-level widgets entry removed, or raises
    [TypeError]; it raises exactly on the values that are not
    [tolerated], and never a [KeyError]. *)
Theorem strip_widgets_result notebook :
  snd (strip_widgets notebook) =
    (if tolerated notebook then Ok (strip_all notebook) else Raise TypeError) /\
  (tolerated notebook = true <-> exists r, snd (strip_widgets notebook) = Ok r) /\
  snd (strip_widgets notebook) ≠ Raise KeyError.
Proof.
  pose proof (pass_result notebook) as H. split; [exact H|].
  destruct (tolerated notebook); rewrite H; split.
  - split; [by eexists|done].
  - done.
  - split; [done|]. by intros [r Hr].
  - done.
Qed.

(** ** The lines the pass prints *)

Lemma cells_loop_lines cells : forall i out r,
  cells_loop i cells = (out, Ok r) -> out = cell_notices i cells.
Proof.
  induction cells as [|cell rest IH]; intros i out r; cbn [cells_loop cell_notices].
  - unfold ret. by intros [= <- _].
  - unfold bind at 1. destruct (cell_level i cell) as [out1 [[cell' ch]|e]] eqn:E1; [|done].
    apply cell_level_returns in E1 as [E1 ->]. cbn [snd].
    unfold bind at 1. destruct (cells_loop (S i) rest) as [out2 [[rest' ch']|e]] eqn:E2; [|done].
    apply IH in E2 as ->. unfold ret. intros [= <- _].
    assert (ch = snd (stripped cell)) as -> by (by rewrite <- E1).
    by rewrite stripped_flag, app_nil_r.
Qed.

Lemma cell_notices_strings {A} (f : A -> string) (l : list A) i :
  cell_notices i (map (fun a => JStr (f a)) l) = [].
Proof. revert i. induction l as [|a l IH]; intros i; [done|]. cbn. apply IH. Qed.

Lemma cells_of_stripped notebook : cells_of (fst (stripped notebook)) = cells_of notebook.
Proof.
  destruct notebook as [| | | | | | d]; try done.
  destruct (stripped_dict d) as (d1 & -> & _ & Hget). unfold cells_of. by rewrite Hget.
Qed.

Lemma cells_pass_lines notebook ch out r :
  cells_pass notebook ch = (out, Ok r) -> out = cell_notices 0 (cells_of notebook).
Proof.
  unfold cells_pass, cells_of.
  destruct notebook as [| | | | s | l | d]; run_py; try done.
  - unfold ret. destruct (str_contains _ _); [done|]. by intros [= <- _].
  - unfold ret. destruct (existsb _ _); [done|]. by intros [= <- _].
  - unfold dict_mem, ret. destruct (dict_get "cells" d) as [cells|] eqn:Ec; [|by intros [= <- _]].
    destruct (py_iter cells) as [items|e] eqn:Ei; [|done].
    destruct (cells_loop 0 items) as [out2 [[items' ch']|e]] eqn:E2; [|done].
    apply cells_loop_lines in E2 as ->. intros [= <- _]. rewrite app_nil_r.
    destruct cells as [| | | | s | l | cd]; cbn [py_iter] in Ei; simplify_eq; try done.
    + apply (cell_notices_strings (fun c => String c EmptyString)).
    + apply (cell_notices_strings fst).
Qed.

Lemma pass_lines notebook out r :
  strip_widgets notebook = (out, Ok r) ->
  out = notice "Removing malformed widgets metadata at notebook level"
               (negb (widgets_fine notebook))
        ++ cell_notices 0 (cells_of notebook).
Proof.
  unfold strip_widgets. unfold bind at 1.
  destruct (notebook_level notebook) as [out1 [[nb1 ch]|e]] eqn:E1; [|done].
  apply notebook_level_returns in E1 as [E1 ->]. cbn [snd].
  destruct (cells_pass nb1 ch) as [out2 r2] eqn:E2. intros [= <- ->].
  apply cells_pass_lines in E2 as ->.
  assert (nb1 = fst (stripped notebook)) as -> by (by rewrite <- E1).
  assert (ch = snd (stripped notebook)) as -> by (by rewrite <- E1).
  by rewrite stripped_flag, cells_of_stripped.
Qed.

Lemma cell_notices_length cells : forall i,
  length (cell_notices i cells) =
  length (List.filter (fun c => negb (widgets_fine c)) cells).
Proof.
  induction cells as [|c cells IH]; intros i; [done|]. cbn [cell_notices List.filter].
  rewrite length_app, IH. by destruct (widgets_fine c).
Qed.

(** X2.  When the pass returns, what it printed is the notebook-level
    removal line if the notebook-level entry was malformed, followed by
    one line per cell whose entry was malformed, in the order of the
    cells, each naming the index of its cell; nothing else, so that the
    number of lines is the number of malformed entries. *)
Theorem strip_widgets_lines notebook out r :
  strip_widgets notebook = (out, Ok r) ->
  out = notice "Removing malformed widgets metadata at notebook level"
               (negb (widgets_fine notebook))
        ++ cell_notices 0 (cells_of notebook) /\
  length out =
    (if widgets_fine notebook then 0 else 1) +
    length (List.filter (fun c => negb (widgets_fine c)) (cells_of notebook)).
Proof.
  intros H. pose proof (pass_lines _ _ _ H) as ->. split; [done|].
  rewrite length_app, cell_notices_length. by destruct (widgets_fine notebook).
Qed.

Lemma cell_notices_elem j cells : forall i,
  ("Removing malformed widgets metadata from cell " +:+ pretty j) ∈ cell_notices i cells <->
  exists k c, j = i + k /\ cells !! k = Some c /\ widgets_fine c = false.
Proof.
  induction cells as [|cell rest IH]; intros i; cbn [cell_notices].
  - split; [by intros ?%elem_of_nil|]. by intros (k & c & _ & ? & _).
  - rewrite elem_of_app, IH. split.
    + intros [Hhere|(k & c & -> & Hk & Hc)].
      * destruct (widgets_fine cell) eqn:Hf; cbn in Hhere; [by apply elem_of_nil in Hhere|].
        apply list_elem_of_singleton in Hhere.
        apply String.app_inj, (inj pretty) in Hhere. subst j.
        exists 0, cell. split; [lia|done].
      * exists (S k), c. split; [lia|done].
    + intros ([|k] & c & -> & Hk & Hc).
      * left. cbn in Hk. simplify_eq. rewrite Hc. cbn. rewrite Nat.add_0_r.
        by apply list_elem_of_singleton.
      * right. exists k, c. split; [lia|done].
Qed.

(** ** The flag, the cells one by one, the shape *)

Lemma map_fixed {A} (f : A -> A) (l : list A) : map f l = l -> Forall (fun x => f x = x) l.
Proof.
  induction l as [|x l IH]; [constructor|]. cbn. intros [= Hx Hl]. constructor; auto.
Qed.

Lemma strip_all_changed notebook :
  snd (strip_all notebook) = true <-> fst (strip_all notebook) ≠ notebook.
Proof.
  split.
  - intros Hflag Heq. rewrite strip_all_flag in Hflag. apply negb_true_iff in Hflag.
    assert (widgets_fine notebook = true) as Hn.
    { pose proof (strip_all_widgets notebook) as Hw.
      rewrite Heq, stripped_widgets in Hw.
      destruct (widgets_fine notebook) eqn:Hf; [done|].
      unfold widgets_fine in Hf. by rewrite Hw in Hf. }
    assert (forallb widgets_fine (cells_of notebook) = true) as Hc.
    { pose proof (strip_all_cells notebook) as Hcells. rewrite Heq in Hcells.
      symmetry in Hcells. apply map_fixed in Hcells.
      apply forallb_forall. intros c Hin%list_elem_of_In.
      rewrite Forall_forall in Hcells. rewrite <- (Hcells c Hin). apply stripped_fine. }
    by rewrite Hn, Hc in Hflag.
  - intros Hne. destruct (snd (strip_all notebook)) eqn:Hflag; [done|].
    by apply strip_all_unchanged in Hflag.
Qed.

Lemma pass_changed notebook out notebook' ch :
  strip_widgets notebook = (out, Ok (notebook', ch)) ->
  (ch = true <-> notebook' ≠ notebook).
Proof.
  intros H%strip_widgets_returns. pose proof (strip_all_changed notebook) as Hc.
  by rewrite <- H in Hc.
Qed.

Lemma lookup_map_some {A B} (f : A -> B) (l : list A) i x :
  l !! i = Some x -> map f l !! i = Some (f x).
Proof.
  revert i. induction l as [|y l IH]; intros [|i]; cbn; try done.
  - by intros [= ->].
  - apply IH.
Qed.

Lemma notebook_line_is_no_cell_line (i : nat) :
  "Removing malformed widgets metadata at notebook level" ≠
  "Removing malformed widgets metadata from cell " +:+ pretty i.
Proof. cbn. discriminate. Qed.

(** X4.  Removals in cells are independent.  When the pass returns, the
    cell of index [i] of the result is the cell of index [i] of the parsed
    document, entry for entry; it is identical, and no line names [i],
    when its widgets entry is absent or valid; it has lost its widgets
    entry, and the line naming [i] was printed, when the entry was
    malformed. *)
Theorem cell_removals_are_independent notebook out notebook' ch i cell :
  strip_widgets notebook = (out, Ok (notebook', ch)) ->
  cells_of notebook !! i = Some cell ->
  exists cell', cells_of notebook' !! i = Some cell' /\
    cell_kept cell cell' /\
    (widgets_fine cell = true ->
       cell' = cell /\
       ("Removing malformed widgets metadata from cell " +:+ pretty i) ∉ out) /\
    (widgets_fine cell = false ->
       metadata_widgets cell' = None /\
       ("Removing malformed widgets metadata from cell " +:+ pretty i) ∈ out).
Proof.
  intros Hrun Hi. pose proof (pass_lines _ _ _ Hrun) as ->.
  apply strip_widgets_returns in Hrun.
  assert (notebook' = fst (strip_all notebook)) as -> by (by rewrite <- Hrun).
  exists (fst (stripped cell)). rewrite strip_all_cells.
  split; [by apply (lookup_map_some (fun c => fst (stripped c)))|]. split; [apply stripped_cell_kept|]. split.
  - intros Hf. split; [by rewrite stripped_unchanged|].
    rewrite elem_of_app, cell_notices_elem. intros [Hnb|(k & c & -> & Hk & Hc)].
    + destruct (widgets_fine notebook); cbn in Hnb; [by apply elem_of_nil in Hnb|].
      apply list_elem_of_singleton in Hnb. symmetry in Hnb.
      by apply notebook_line_is_no_cell_line in Hnb.
    + cbn in Hi. rewrite Hi in Hk. simplify_eq. congruence.
  - intros Hf. split; [by rewrite stripped_widgets, Hf|].
    rewrite elem_of_app, cell_notices_elem. right. by exists i, cell.
Qed.

Lemma stripped_shaped d :
  metadata_shaped d = true ->
  exists d', fst (stripped (JDict d)) = JDict d' /\ metadata_shaped d' = true.
Proof.
  intros Hs. unfold stripped.
  destruct (dict_get "metadata" d) as [[| | | | | | m]|] eqn:Em; try by exists d.
  destruct (dict_get "widgets" m) as [w|]; [|by exists d].
  destruct (has_valid_widget_state w); [by exists d|].
  eexists. split; [done|]. unfold metadata_shaped. by rewrite dict_get_put_eq.
Qed.

Lemma stripped_cells_shaped cells :
  forallb cell_shaped cells = true ->
  forallb cell_shaped (map (fun c => fst (stripped c)) cells) = true.
Proof.
  induction cells as [|c cells IH]; [done|]. cbn [forallb map].
  intros [Hc Hr]%andb_true_iff. rewrite IH by done.
  destruct c as [| | | | | | d]; try done.
  destruct (stripped_shaped d Hc) as (d' & -> & Hd'). by rewrite andb_true_r.
Qed.

(** X5.  On a document of the data model's shape the pass raises
    nothing, and its result has that shape again. *)
Theorem shaped_document_stays_shaped notebook :
  notebook_shaped notebook = true ->
  exists out notebook' ch,
    strip_widgets notebook = (out, Ok (notebook', ch)) /\
    notebook_shaped notebook' = true.
Proof.
  intros Hshape. destruct (strip_widgets_shaped notebook Hshape) as [out Hrun].
  exists out, (fst (strip_all notebook)), (snd (strip_all notebook)).
  split; [by rewrite Hrun; destruct (strip_all notebook)|].
  destruct notebook as [| | | | | | d]; try done. cbn [notebook_shaped] in Hshape.
  apply andb_true_iff in Hshape as [Hm Hc]. unfold strip_all.
  destruct (stripped_shaped d Hm) as (d1 & E1 & Hm1).
  destruct (stripped_dict d) as (d1' & E1' & _ & Hget).
  destruct (stripped (JDict d)) as [nb1 ch]. cbn [fst] in *. simplify_eq.
  rewrite (Hget "cells") by done.
  destruct (dict_get "cells" d) as [[| | | | | cells |]|] eqn:Ec; try done.
  - cbn [fst notebook_shaped]. unfold metadata_shaped in *.
    rewrite dict_get_put_ne by done. rewrite dict_get_put_eq.
    destruct (dict_get "metadata" d1') as [[| | | | | | m]|]; try done.
    all: by apply stripped_cells_shaped.
  - cbn [fst notebook_shaped]. rewrite Hm1. by rewrite Hget, Ec.
Qed.

(** ** Every line of the pass is a removal line *)

Lemma level_prints line owner :
  fst (level line owner) = [] \/ fst (level line owner) = [line].
Proof.
  unfold level. destruct owner as [| | | | s | l | d]; run_py; auto.
  - destruct (str_contains _ _); auto.
  - destruct (existsb _ _); auto.
  - unfold dict_mem. destruct (dict_get "metadata" d) as [m|]; [|auto]. run_py.
    destruct m as [| | | | s | l | dm]; run_py; auto.
    + destruct (str_contains _ _); auto.
    + destruct (existsb _ _); auto.
    + unfold dict_mem. destruct (dict_get "widgets" dm) as [w|] eqn:Ew; [|auto]. run_py.
      destruct (has_valid_widget_state w); run_py; auto.
Qed.

Lemma bind_prints {A B} (m : Py A) (f : A -> Py B) :
  Forall removal_line (fst m) ->
  (forall a, Forall removal_line (fst (f a))) ->
  Forall removal_line (fst (bind m f)).
Proof.
  intros Hm Hf. destruct m as [out [a|e]]; cbn in *; [|done].
  specialize (Hf a). destruct (f a) as [out' r]. cbn in *. by apply Forall_app.
Qed.

Lemma cells_loop_prints cells : forall i, Forall removal_line (fst (cells_loop i cells)).
Proof.
  induction cells as [|cell rest IH]; intros i; cbn [cells_loop]; [constructor|].
  apply bind_prints.
  - rewrite cell_level_eq.
    destruct (level_prints ("Removing malformed widgets metadata from cell " +:+ pretty i) cell)
      as [-> | ->]; [constructor|]. by constructor.
  - intros [cell' ch]. apply bind_prints; [apply IH|]. intros [rest' ch']. constructor.
Qed.

Lemma strip_widgets_prints notebook : Forall removal_line (fst (strip_widgets notebook)).
Proof.
  unfold strip_widgets. apply bind_prints.
  - rewrite notebook_level_eq.
    destruct (level_prints "Removing malformed widgets metadata at notebook level" notebook)
      as [-> | ->]; [constructor|]. by constructor.
  - intros [nb1 ch]. unfold cells_pass.
    apply bind_prints; [constructor|]. intros [|]; [|constructor].
    apply bind_prints; [constructor|]. intros cells.
    apply bind_prints; [constructor|]. intros items.
    apply bind_prints; [apply cells_loop_prints|]. intros [items' ch']. constructor.
Qed.

Lemma removal_line_no_error line : removal_line line -> ~ error_line line.
Proof.
  unfold removal_line, error_line, String.prefix. destruct line as [|a line]; [done|].
  destruct (ascii_dec "R" a) as [<-|]; done.
Qed.

(** * Further properties of [fix_notebook] on the disk *)

Section Disk.

Variable json_load : string -> load_result.
Variable json_dumps : value -> string.

(** The five ways lines 81-111 can go. *)
Lemma persist_branches p env fs out d ch bytes :
  fs !! p = Some bytes ->
  let backup := backup_path_of p env in
  let out1 := out ++ ["Created backup: " +:+ backup] in
  let fs1 := <[backup := bytes]> fs in
  persist json_dumps p env fs out d ch =
    if ch then
      match backup_copy env with
      | IoError e r =>
          Build_Run (Ok false) (leave backup r fs)
            (out ++ ["Error creating backup: " +:+ e]) (Some (d, true))
      | IoOk =>
          match write_fixed env with
          | IoOk =>
              Build_Run (Ok true) (<[p := json_dumps d +:+ newline]> fs1)
                (out1 ++ ["Successfully fixed: " +:+ p]) (Some (d, true))
          | IoError e r =>
              let out2 := out1 ++ ["Error writing fixed notebook: " +:+ e] in
              match restore_copy env with
              | IoOk =>
                  Build_Run (Ok false) (<[p := bytes]> (leave p r fs1))
                    (out2 ++ ["Restored from backup due to write error"]) (Some (d, true))
              | IoError e' r' =>
                  Build_Run (Ok false) (leave p r' (leave p r fs1))
                    (out2 ++ ["Error restoring backup: " +:+ e']) (Some (d, true))
              end
          end
      end
    else
      Build_Run (Ok true) fs
        (out ++ ["No malformed widget metadata found in: " +:+ p]) (Some (d, false)).
Proof.
  intros Hp backup out1 fs1. destruct ch; [|done].
  destruct (backup_copy env) as [|e r] eqn:Hb.
  - destruct (write_fixed env) as [|e r] eqn:Hw.
    + by rewrite (persist_all_ok _ _ _ _ _ _ _ Hp Hb Hw).
    + by rewrite (persist_write_fails _ _ _ _ _ _ _ _ _ Hp Hb Hw).
  - by rewrite (persist_backup_fails _ _ _ _ _ _ _ _ _ Hp Hb).
Qed.

(** X6.  Whatever happens, [fix_notebook] changes nothing on the disk
    outside the notebook path and the backup path. *)
Theorem only_notebook_and_backup_touched p env fs k :
  k ≠ p -> k ≠ backup_path_of p env ->
  disk (fix_notebook json_load json_dumps p env fs) !! k = fs !! k.
Proof.
  intros Hk Hkb. unfold fix_notebook.
  destruct (fs !! p) as [bytes|] eqn:Hp; [|done].
  destruct (read_notebook json_load env bytes) as [d| |]; try done.
  destruct (strip_widgets d) as [out [[d' ch]|e]]; [|done].
  rewrite (persist_branches _ _ _ _ _ _ _ Hp). destruct ch; [|done].
  destruct (backup_copy env) as [|e r]; cbn [disk].
  - destruct (write_fixed env) as [|e r]; cbn [disk].
    + by rewrite !lookup_insert_ne by done.
    + destruct (restore_copy env) as [|e' r']; cbn [disk].
      * by rewrite lookup_insert_ne, leave_lookup_ne, lookup_insert_ne by done.
      * by rewrite !leave_lookup_ne, lookup_insert_ne by done.
  - by rewrite leave_lookup_ne by done.
Qed.

(** X7.  The bytes the notebook had before the run are never lost: after
    the run they are in the notebook file or in the backup file. *)
Theorem original_bytes_survive p env fs bytes :
  fs !! p = Some bytes ->
  disk (fix_notebook json_load json_dumps p env fs) !! p = Some bytes \/
  disk (fix_notebook json_load json_dumps p env fs) !! backup_path_of p env = Some bytes.
Proof.
  intros Hp. unfold fix_notebook. rewrite Hp.
  destruct (read_notebook json_load env bytes) as [d| |]; try by left.
  destruct (strip_widgets d) as [out [[d' ch]|e]]; [|by left].
  rewrite (persist_branches _ _ _ _ _ _ _ Hp). destruct ch; [|by left].
  pose proof (backup_path_ne p env) as Hne.
  destruct (backup_copy env) as [|e r]; cbn [disk].
  - right. destruct (write_fixed env) as [|e r]; cbn [disk].
    + rewrite lookup_insert_ne by done. apply lookup_insert_eq.
    + destruct (restore_copy env) as [|e' r']; cbn [disk].
      * rewrite lookup_insert_ne, leave_lookup_ne by done. apply lookup_insert_eq.
      * rewrite !leave_lookup_ne by done. apply lookup_insert_eq.
  - left. by rewrite leave_lookup_ne.
Qed.

(** X8.  A run that does not return [True] leaves the notebook file as
    it was, provided the restoring copy of line 104 works when it is
    called; only a write that fails followed by a restoration that fails
    can leave other bytes there. *)
Theorem failed_run_leaves_notebook p env fs :
  returned (fix_notebook json_load json_dumps p env fs) ≠ Ok true ->
  restore_copy env = IoOk ->
  disk (fix_notebook json_load json_dumps p env fs) !! p = fs !! p.
Proof.
  unfold fix_notebook. destruct (fs !! p) as [bytes|] eqn:Hp; [|done].
  destruct (read_notebook json_load env bytes) as [d| |]; try done.
  destruct (strip_widgets d) as [out [[d' ch]|e]]; [|done].
  rewrite (persist_branches _ _ _ _ _ _ _ Hp). destruct ch; [|done].
  pose proof (backup_path_ne p env) as Hne.
  destruct (backup_copy env) as [|e r]; cbn [disk returned].
  - destruct (write_fixed env) as [|e r]; cbn [disk returned]; [done|].
    intros _ ->. cbn [disk]. by rewrite lookup_insert_eq.
  - intros _ _. by rewrite leave_lookup_ne.
Qed.

(** X9.  The printed messages tell the outcome: when [fix_notebook]
    returns, it returns [False] exactly when the text of one of its
    [print] calls starts with 'Error'.  ([stdout] has one element per
    [print] call; a path that holds a newline stays inside the message
    that prints it.) *)
Theorem returns_false_iff_error_line p env fs b :
  returned (fix_notebook json_load json_dumps p env fs) = Ok b ->
  (b = false <-> Exists error_line (stdout (fix_notebook json_load json_dumps p env fs))).
Proof.
  unfold fix_notebook. destruct (fs !! p) as [bytes|] eqn:Hp.
  2:{ intros [= <-]. split; [|done]. intros _. by constructor. }
  destruct (read_notebook json_load env bytes) as [d| |].
  2,3: intros [= <-]; split; [|done]; intros _; by constructor.
  pose proof (strip_widgets_prints d) as Hout.
  destruct (strip_widgets d) as [out [[d' ch]|e]]; [|done]. cbn [fst] in Hout.
  assert (~ Exists error_line out) as Hquiet.
  { rewrite Exists_exists. intros (line & Hin & Herr).
    rewrite Forall_forall in Hout. by apply (removal_line_no_error line (Hout _ Hin)). }
  rewrite (persist_branches _ _ _ _ _ _ _ Hp). destruct ch.
  - destruct (backup_copy env) as [|e r]; cbn [returned stdout].
    + destruct (write_fixed env) as [|e r]; cbn [returned stdout].
      * intros [= <-]. split; [done|]. rewrite !Exists_app.
        intros [[?|H]|H]; [done|by apply Exists_cons in H as [?|?%Exists_nil]..].
      * destruct (restore_copy env) as [|e' r']; cbn [returned stdout];
          intros [= <-]; (split; [|done]); intros _; rewrite !Exists_app;
          left; right; by constructor.
    + intros [= <-]. split; [|done]. intros _. rewrite Exists_app. right. by constructor.
  - cbn [returned stdout]. intros [= <-]. split; [done|]. rewrite Exists_app.
    intros [?|H]; [done|]. by apply Exists_cons in H as [?|?%Exists_nil].
Qed.

(** X10.  [fix_notebook] returns a boolean exactly when the parsed value
    is [tolerated].  Otherwise [TypeError] escapes, and it escapes
    silently: the disk is as it was and no line that was printed reports
    an error. *)
Theorem escapes_iff_not_tolerated p env fs bytes d :
  fs !! p = Some bytes -> read_notebook json_load env bytes = Loaded d ->
  (tolerated d = true ->
     exists b, returned (fix_notebook json_load json_dumps p env fs) = Ok b) /\
  (tolerated d = false ->
     returned (fix_notebook json_load json_dumps p env fs) = Raise TypeError /\
     disk (fix_notebook json_load json_dumps p env fs) = fs /\
     ~ Exists error_line (stdout (fix_notebook json_load json_dumps p env fs))).
Proof.
  intros Hp Hr. rewrite (fix_notebook_loaded _ _ _ _ _ _ _ Hp Hr).
  pose proof (pass_result d) as Hres.
  pose proof (strip_widgets_prints d) as Hout.
  destruct (strip_widgets d) as [out r]. cbn [fst snd] in *. subst r.
  destruct (tolerated d); split; try done.
  - intros _. destruct (strip_all d) as [d' ch].
    rewrite (persist_branches _ _ _ _ _ _ _ Hp). destruct ch; [|by eexists].
    destruct (backup_copy env); [|by eexists].
    destruct (write_fixed env); [by eexists|].
    destruct (restore_copy env); by eexists.
  - intros _. cbn [returned disk stdout]. split; [done|]. split; [done|].
    rewrite Exists_exists. intros (line & Hin & Herr).
    rewrite Forall_forall in Hout. by apply (removal_line_no_error line (Hout _ Hin)).
Qed.

(** X11.  The disk is modified only after a removal: a run that ends
    with a disk different from the one it started with reached line 81
    with [changes_made] true. *)
Theorem disk_changes_only_after_removal p env fs :
  disk (fix_notebook json_load json_dumps p env fs) ≠ fs ->
  exists d', at_line_81 (fix_notebook json_load json_dumps p env fs) = Some (d', true).
Proof.
  unfold fix_notebook. destruct (fs !! p) as [bytes|] eqn:Hp; [|done].
  destruct (read_notebook json_load env bytes) as [d| |]; try done.
  destruct (strip_widgets d) as [out [[d' ch]|e]]; [|done].
  rewrite persist_line_81. destruct ch; [by exists d'|]. by rewrite persist_no_change.
Qed.

Lemma malformed_cell_found cells i cell :
  cells !! i = Some cell -> widgets_fine cell = false -> forallb widgets_fine cells = false.
Proof.
  revert i. induction cells as [|c cells IH]; intros [|i]; cbn; try done.
  - by intros [= ->] ->.
  - intros Hi Hf. rewrite (IH _ Hi Hf). apply andb_false_r.
Qed.

(** X12.  For a document of the data model's shape in which the widgets
    entry of some cell is malformed, provided the backup copy and the
    write both succeed: [fix_notebook] returns [True], that cell has no
    widgets entry in the document written, the backup holds the bytes
    the file had, and the last line printed reports the success. *)
Theorem malformed_cell_widgets_removed p env fs bytes d i cell :
  fs !! p = Some bytes -> read_notebook json_load env bytes = Loaded d ->
  notebook_shaped d = true ->
  cells_of d !! i = Some cell -> widgets_fine cell = false ->
  backup_copy env = IoOk -> write_fixed env = IoOk ->
  exists d' cell',
    returned (fix_notebook json_load json_dumps p env fs) = Ok true /\
    at_line_81 (fix_notebook json_load json_dumps p env fs) = Some (d', true) /\
    cells_of d' !! i = Some cell' /\ metadata_widgets cell' = None /\
    disk (fix_notebook json_load json_dumps p env fs) !! p = Some (json_dumps d' +:+ newline) /\
    disk (fix_notebook json_load json_dumps p env fs) !! backup_path_of p env = Some bytes /\
    last (stdout (fix_notebook json_load json_dumps p env fs)) = Some ("Successfully fixed: " +:+ p).
Proof.
  intros Hp Hr Hshape Hi Hbad Hb Hw.
  rewrite (fix_notebook_loaded _ _ _ _ _ _ _ Hp Hr).
  destruct (strip_widgets_shaped d Hshape) as [out ->].
  pose proof (strip_all_flag d) as Hflag.
  rewrite (malformed_cell_found _ _ _ Hi Hbad), andb_false_r in Hflag. cbn in Hflag.
  pose proof (strip_all_cells d) as Hcells.
  destruct (strip_all d) as [d' ch]. cbn [fst snd] in *. subst ch.
  rewrite (persist_all_ok _ _ _ _ _ _ _ Hp Hb Hw). cbn [returned at_line_81 disk stdout].
  exists d', (fst (stripped cell)). split; [done|]. split; [done|]. split.
  { rewrite Hcells. by apply (lookup_map_some (fun c => fst (stripped c))). }
  split; [by rewrite stripped_widgets, Hbad|]. split; [apply lookup_insert_eq|]. split.
  - rewrite lookup_insert_ne by (symmetry; apply backup_path_ne). apply lookup_insert_eq.
  - apply last_snoc.
Qed.

End Disk.

(** * The further properties at the sample files *)

Example sample_run_cells :
  fix_notebook cells_load cells_dumps "nb.ipynb" quiet (disk_with text_cells) =
    Build_Run (Ok true)
      (<["nb.ipynb" := text_cells_fixed +:+ newline]>
         (<["nb.ipynb.bak-20240309_140507" := text_cells]> (disk_with text_cells)))
      ["Removing malformed widgets metadata from cell 1";
       "Created backup: nb.ipynb.bak-20240309_140507";
       "Successfully fixed: nb.ipynb"]
      (Some (doc_cells_fixed, true)).
Proof. by_computation. Qed.

Lemma strip_widgets_lines_witness :
  strip_widgets doc_cells =
    (["Removing malformed widgets metadata from cell 1"], Ok (doc_cells_fixed, true)) /\
  ["Removing malformed widgets metadata from cell 1"] =
    notice "Removing malformed widgets metadata at notebook level"
      (negb (widgets_fine doc_cells)) ++ cell_notices 0 (cells_of doc_cells).
Proof.
  assert (strip_widgets doc_cells =
            (["Removing malformed widgets metadata from cell 1"],
             Ok (doc_cells_fixed, true))) as H1 by by_computation.
  split; [assumption|].
  exact (proj1 (strip_widgets_lines doc_cells _ _ H1)).
Defined.

Lemma cell_removals_are_independent_witness :
  strip_widgets doc_cells =
    (["Removing malformed widgets metadata from cell 1"], Ok (doc_cells_fixed, true)) /\
  cells_of doc_cells !! 2 = Some (JDict [("metadata", JDict [])]) /\
  exists cell', cells_of doc_cells_fixed !! 2 = Some cell' /\
                cell_kept (JDict [("metadata", JDict [])]) cell'.
Proof.
  assert (strip_widgets doc_cells =
            (["Removing malformed widgets metadata from cell 1"],
             Ok (doc_cells_fixed, true))) as H1 by by_computation.
  assert (cells_of doc_cells !! 2 = Some (JDict [("metadata", JDict [])])) as H2
    by by_computation.
  split; [assumption|]. split; [assumption|].
  destruct (cell_removals_are_independent doc_cells _ _ _ 2 _ H1 H2)
    as (cell' & Hc & Hk & _).
  exists cell'. split; [exact Hc|exact Hk].
Defined.

Lemma shaped_document_stays_shaped_witness :
  notebook_shaped doc_cells = true /\
  exists out notebook' ch,
    strip_widgets doc_cells = (out, Ok (notebook', ch)) /\ notebook_shaped notebook' = true.
Proof.
  assert (notebook_shaped doc_cells = true) as H1 by by_computation.
  split; [assumption|]. exact (shaped_document_stays_shaped doc_cells H1).
Defined.

Lemma only_notebook_and_backup_touched_witness :
  "notes.txt" ≠ "nb.ipynb" /\ "notes.txt" ≠ backup_path_of "nb.ipynb" quiet /\
  disk (fix_notebook sample_load sample_dumps "nb.ipynb" quiet disk_two) !! "notes.txt"
    = disk_two !! "notes.txt".
Proof.
  assert ("notes.txt" ≠ "nb.ipynb") as H1 by discriminate.
  assert ("notes.txt" ≠ backup_path_of "nb.ipynb" quiet) as H2 by (vm_compute; discriminate).
  split; [assumption|]. split; [assumption|].
  exact (only_notebook_and_backup_touched sample_load sample_dumps
           "nb.ipynb" quiet disk_two "notes.txt" H1 H2).
Defined.

Lemma original_bytes_survive_witness :
  disk_with text_malformed !! "nb.ipynb" = Some text_malformed /\
  (disk (fix_notebook sample_load sample_dumps "nb.ipynb" quiet (disk_with text_malformed))
     !! "nb.ipynb" = Some text_malformed \/
   disk (fix_notebook sample_load sample_dumps "nb.ipynb" quiet (disk_with text_malformed))
     !! backup_path_of "nb.ipynb" quiet = Some text_malformed).
Proof.
  assert (disk_with text_malformed !! "nb.ipynb" = Some text_malformed) as H1
    by by_computation.
  split; [assumption|].
  exact (original_bytes_survive sample_load sample_dumps
           "nb.ipynb" quiet (disk_with text_malformed) text_malformed H1).
Defined.

Lemma failed_run_leaves_notebook_witness :
  returned (fix_notebook sample_load sample_dumps "nb.ipynb" disk_full
              (disk_with text_malformed)) ≠ Ok true /\
  restore_copy disk_full = IoOk /\
  disk (fix_notebook sample_load sample_dumps "nb.ipynb" disk_full (disk_with text_malformed))
    !! "nb.ipynb" = disk_with text_malformed !! "nb.ipynb".
Proof.
  assert (returned (fix_notebook sample_load sample_dumps "nb.ipynb" disk_full
                      (disk_with text_malformed)) ≠ Ok true) as H1
    by (vm_compute; discriminate).
  split; [assumption|]. split; [reflexivity|].
  exact (failed_run_leaves_notebook sample_load sample_dumps
           "nb.ipynb" disk_full (disk_with text_malformed) H1 eq_refl).
Defined.

Lemma returns_false_iff_error_line_witness :
  returned (fix_notebook sample_load sample_dumps "nb.ipynb" backup_denied
              (disk_with text_malformed)) = Ok false /\
  Exists error_line
    (stdout (fix_notebook sample_load sample_dumps "nb.ipynb" backup_denied
               (disk_with text_malformed))).
Proof.
  assert (returned (fix_notebook sample_load sample_dumps "nb.ipynb" backup_denied
                      (disk_with text_malformed)) = Ok false) as H1 by by_computation.
  split; [assumption|].
  exact (proj1 (returns_false_iff_error_line sample_load sample_dumps
                  "nb.ipynb" backup_denied (disk_with text_malformed) false H1) eq_refl).
Defined.

Lemma escapes_iff_not_tolerated_witness :
  disk_with text_null_metadata !! "nb.ipynb" = Some text_null_metadata /\
  read_notebook sample_load quiet text_null_metadata = Loaded doc_null_metadata /\
  tolerated doc_null_metadata = false /\
  returned (fix_notebook sample_load sample_dumps "nb.ipynb" quiet
              (disk_with text_null_metadata)) = Raise TypeError.
Proof.
  assert (disk_with text_null_metadata !! "nb.ipynb" = Some text_null_metadata) as H1
    by by_computation.
  assert (read_notebook sample_load quiet text_null_metadata = Loaded doc_null_metadata)
    as H2 by by_computation.
  assert (tolerated doc_null_metadata = false) as H3 by by_computation.
  split; [assumption|]. split; [assumption|]. split; [assumption|].
  exact (proj1 (proj2 (escapes_iff_not_tolerated sample_load sample_dumps
                         "nb.ipynb" quiet (disk_with text_null_metadata)
                         text_null_metadata doc_null_metadata H1 H2) H3)).
Defined.

Lemma disk_changes_only_after_removal_witness :
  disk (fix_notebook sample_load sample_dumps "nb.ipynb" quiet (disk_with text_malformed))
    ≠ disk_with text_malformed /\
  exists d',
    at_line_81 (fix_notebook sample_load sample_dumps "nb.ipynb" quiet
                  (disk_with text_malformed)) = Some (d', true).
Proof.
  assert (disk (fix_notebook sample_load sample_dumps "nb.ipynb" quiet
                  (disk_with text_malformed)) ≠ disk_with text_malformed) as H1.
  { intros H. apply (f_equal (fun fs => fs !! "nb.ipynb")) in H.
    vm_compute in H. discriminate H. }
  split; [assumption|].
  exact (disk_changes_only_after_removal sample_load sample_dumps
           "nb.ipynb" quiet (disk_with text_malformed) H1).
Defined.

Lemma malformed_cell_widgets_removed_witness :
  disk_with text_cells !! "nb.ipynb" = Some text_cells /\
  read_notebook cells_load quiet text_cells = Loaded doc_cells /\
  notebook_shaped doc_cells = true /\
  cells_of doc_cells !! 1 =
    Some (JDict [("metadata", JDict [("widgets", JNull)]); ("source", JStr "x")]) /\
  widgets_fine (JDict [("metadata", JDict [("widgets", JNull)]); ("source", JStr "x")])
    = false /\
  backup_copy quiet = IoOk /\ write_fixed quiet = IoOk /\
  exists d' cell',
    returned (fix_notebook cells_load cells_dumps "nb.ipynb" quiet (disk_with text_cells))
      = Ok true /\
    at_line_81 (fix_notebook cells_load cells_dumps "nb.ipynb" quiet (disk_with text_cells))
      = Some (d', true) /\
    cells_of d' !! 1 = Some cell' /\ metadata_widgets cell' = None.
Proof.
  assert (disk_with text_cells !! "nb.ipynb" = Some text_cells) as H1 by by_computation.
  assert (read_notebook cells_load quiet text_cells = Loaded doc_cells) as H2
    by by_computation.
  assert (notebook_shaped doc_cells = true) as H3 by by_computation.
  assert (cells_of doc_cells !! 1 =
            Some (JDict [("metadata", JDict [("widgets", JNull)]); ("source", JStr "x")]))
    as H4 by by_computation.
  assert (widgets_fine (JDict [("metadata", JDict [("widgets", JNull)]);
                               ("source", JStr "x")]) = false) as H5 by by_computation.
  do 5 (split; [assumption|]). split; [reflexivity|]. split; [reflexivity|].
  destruct (malformed_cell_widgets_removed cells_load cells_dumps
              "nb.ipynb" quiet (disk_with text_cells) text_cells doc_cells 1 _
              H1 H2 H3 H4 H5 eq_refl eq_refl)
    as (d' & cell' & Hret & H81 & Hc & Hw & _).
  exists d', cell'. split; [exact Hret|]. split; [exact H81|]. split; [exact Hc|exact Hw].
Defined.

(** * The backup and the write against the change; a value without widgets *)

Section Saving.

Variable json_load : string -> load_result.
Variable json_dumps : value -> string.

(** X3.  [changes_made] is true at line 81 exactly when the document in
    memory differs from the one that was parsed, and the backup and the
    write happen when, and only when, it differs.  If it does not
    differ, [fix_notebook] returns [True] and the disk is untouched.  If
    it differs, the backup copy is made first: when the copy fails the
    call returns [False] and the disk holds at most what the copy left
    at the backup path; when it succeeds the backup holds the original
    bytes and the write follows, which gives [True] with the new
    document in the file, or [False] when the write fails. *)
Theorem changes_made_iff_document_changed p env fs bytes d d' ch :
  fs !! p = Some bytes -> read_notebook json_load env bytes = Loaded d ->
  at_line_81 (fix_notebook json_load json_dumps p env fs) = Some (d', ch) ->
  (ch = true <-> d' ≠ d) /\
  (d' = d ->
     returned (fix_notebook json_load json_dumps p env fs) = Ok true /\
     disk (fix_notebook json_load json_dumps p env fs) = fs) /\
  (d' ≠ d ->
     match backup_copy env with
     | IoError e r =>
         returned (fix_notebook json_load json_dumps p env fs) = Ok false /\
         disk (fix_notebook json_load json_dumps p env fs)
           = leave (backup_path_of p env) r fs
     | IoOk =>
         disk (fix_notebook json_load json_dumps p env fs) !! backup_path_of p env
           = Some bytes /\
         match write_fixed env with
         | IoOk =>
             returned (fix_notebook json_load json_dumps p env fs) = Ok true /\
             disk (fix_notebook json_load json_dumps p env fs) !! p
               = Some (json_dumps d' +:+ newline)
         | IoError e r =>
             returned (fix_notebook json_load json_dumps p env fs) = Ok false
         end
     end).
Proof.
  intros Hp Hr H81.
  destruct (line_81_reached _ _ _ _ _ _ _ _ _ Hp Hr H81) as (_ & out & Hpass & ->).
  pose proof (pass_changed _ _ _ _ Hpass) as Hflag.
  split; [exact Hflag|]. rewrite (persist_branches _ _ _ _ _ _ _ _ Hp).
  pose proof (backup_path_ne p env) as Hne. split.
  - intros Hsame. destruct ch; [by apply Hflag in Hsame|]. done.
  - intros Hdiff. apply Hflag in Hdiff as ->.
    destruct (backup_copy env) as [|e r]; cbn [returned disk]; [|done].
    destruct (write_fixed env) as [|e r]; cbn [returned disk].
    + split; [|split; [done|apply lookup_insert_eq]].
      rewrite lookup_insert_ne by done. apply lookup_insert_eq.
    + destruct (restore_copy env) as [|e' r']; cbn [returned disk]; (split; [|done]).
      * rewrite lookup_insert_ne, leave_lookup_ne by done. apply lookup_insert_eq.
      * rewrite !leave_lookup_ne by done. apply lookup_insert_eq.
Qed.

(** C6, at a failing input.  The mapping whose only entry is a null
    [metadata] contains the key 'widgets' nowhere, and nothing is to be
    removed from it; yet the run is no successful no-op: ['widgets' in
    notebook['metadata']] raises [TypeError] at line 64, the call
    returns no outcome, and the report that nothing malformed was found
    (line 110) is never printed.  The disk is left as it was. *)
Theorem no_widgets_yet_no_success p env fs bytes :
  fs !! p = Some bytes ->
  read_notebook json_load env bytes = Loaded (JDict [("metadata", JNull)]) ->
  mentions "widgets" (JDict [("metadata", JNull)]) = false /\
  returned (fix_notebook json_load json_dumps p env fs) = Raise TypeError /\
  returned (fix_notebook json_load json_dumps p env fs) ≠ Ok true /\
  stdout (fix_notebook json_load json_dumps p env fs) = [] /\
  at_line_81 (fix_notebook json_load json_dumps p env fs) = None /\
  disk (fix_notebook json_load json_dumps p env fs) = fs.
Proof.
  intros Hp Hr. rewrite (fix_notebook_loaded _ _ _ _ _ _ _ Hp Hr).
  assert (strip_widgets (JDict [("metadata", JNull)]) = ([], Raise TypeError)) as ->
    by reflexivity.
  cbn [returned stdout at_line_81 disk]. by repeat split.
Qed.

End Saving.

Lemma changes_made_iff_document_changed_witness :
  disk_with text_cells !! "nb.ipynb" = Some text_cells /\
  read_notebook cells_load quiet text_cells = Loaded doc_cells /\
  at_line_81 (fix_notebook cells_load cells_dumps "nb.ipynb" quiet (disk_with text_cells))
    = Some (doc_cells_fixed, true) /\
  doc_cells_fixed ≠ doc_cells.
Proof.
  assert (disk_with text_cells !! "nb.ipynb" = Some text_cells) as H1 by by_computation.
  assert (read_notebook cells_load quiet text_cells = Loaded doc_cells) as H2
    by by_computation.
  assert (at_line_81 (fix_notebook cells_load cells_dumps "nb.ipynb" quiet
                        (disk_with text_cells)) = Some (doc_cells_fixed, true)) as H3
    by by_computation.
  split; [assumption|]. split; [assumption|]. split; [assumption|].
  exact (proj1 (proj1 (changes_made_iff_document_changed cells_load cells_dumps
                         "nb.ipynb" quiet (disk_with text_cells) text_cells
                         doc_cells doc_cells_fixed true H1 H2 H3)) eq_refl).
Defined.

Lemma no_widgets_yet_no_success_witness :
  disk_with text_null_metadata !! "nb.ipynb" = Some text_null_metadata /\
  read_notebook sample_load quiet text_null_metadata = Loaded (JDict [("metadata", JNull)]) /\
  mentions "widgets" (JDict [("metadata", JNull)]) = false /\
  returned (fix_notebook sample_load sample_dumps "nb.ipynb" quiet
              (disk_with text_null_metadata)) ≠ Ok true.
Proof.
  assert (disk_with text_null_metadata !! "nb.ipynb" = Some text_null_metadata) as H1
    by by_computation.
  assert (read_notebook sample_load quiet text_null_metadata
          = Loaded (JDict [("metadata", JNull)])) as H2 by by_computation.
  split; [assumption|]. split; [assumption|].
  destruct (no_widgets_yet_no_success sample_load sample_dumps
              "nb.ipynb" quiet (disk_with text_null_metadata) text_null_metadata H1 H2)
    as (Hno & _ & Hne & _).
  split; [exact Hno|exact Hne].
Defined.
